(** * pyxmpp2.cert: TLS certificate names and peer verification

    A shallow embedding of [pyxmpp2/cert.py]: the [CertificateData] model,
    the identity extraction [get_jids], the two decision procedures
    [verify_server] and [verify_client], and the ASN.1 walk of
    [ASN1CertificateData] over the tree that pyasn1 hands back.

    Python values are modelled as follows.
    - [unicode] text is a [string]; a [str]/[bytes] blob is a [list byte].
    - A dict (and a [defaultdict(list)]) is a [gmap string (list string)];
      [k in d] is [bool_decide (k ∈ dom d)], [d.get(k, [])] is [get_list].
    - A call that may raise returns an [outcome]; a local variable that
      may be unbound is an [option].
    - What lives outside the file (the JID type, pyasn1's DER decoder,
      the text codecs, [strptime]) is an interface, one class each. *)

From stdpp Require Import gmap strings list fin_maps.
From Stdlib.Strings Require Import Byte Ascii.

Local Open Scope string_scope.
Local Open Scope list_scope.
Local Open Scope nat_scope.

(** ** Python prelude *)

Definition bytes := list byte.

#[global] Instance byte_eq_decision : EqDecision byte := Byte.byte_eq_dec.

(** The exceptions this module can let escape. [UnboundLocalError] is the
    [NameError] that Python raises for a local read before assignment. *)
Inductive exn :=
| JIDError
| UnboundLocalError
| UnicodeError
| PyAsn1Error
| ValueError.

Inductive outcome (A : Type) :=
| Return (a : A)
| Raise (e : exn).
Arguments Return {A} a.
Arguments Raise {A} e.

Definition bind {A B} (m : outcome A) (k : A → outcome B) : outcome B :=
  match m with
  | Return a => k a
  | Raise e => Raise e
  end.

Notation "'let*' x ':=' m 'in' k" := (bind m (λ x, k))
  (at level 10, x name, m at level 100, k at level 200).

(** [lift e o]: the value of [o], or exception [e] when the callee failed. *)
Definition lift {A} (e : exn) (o : option A) : outcome A :=
  match o with
  | Some a => Return a
  | None => Raise e
  end.

(** Truth value of a [unicode] object. *)
Definition truthy (s : string) : bool :=
  match s with
  | EmptyString => false
  | String _ _ => true
  end.

(** [sub in s] for text. *)
Definition contains (sub s : string) : bool :=
  match String.index 0 sub s with
  | Some _ => true
  | None => false
  end.

(** [s.startswith(p)] *)
Definition startswith (s p : string) : bool := String.prefix p s.

(** [s[n:]] *)
Fixpoint slice_from (n : nat) (s : string) : string :=
  match n, s with
  | O, _ => s
  | S n', String _ s' => slice_from n' s'
  | S _, EmptyString => EmptyString
  end.

(** [d.get(k, [])] *)
Definition get_list (d : gmap string (list string)) (k : string) : list string :=
  default [] (d !! k).

(** [k in d] *)
Definition has_key (d : gmap string (list string)) (k : string) : bool :=
  bool_decide (k ∈ dom d).

(** ** The JID collaborator ([pyxmpp2.jid], not part of this file)

    [JID_new s] is the constructor [JID(s)]: [None] stands for the
    [JIDError] it raises on a malformed string. [JIDError] is a
    [ValueError], so the [except ValueError] handlers of [verify_server]
    catch it as the [except JIDError] of [get_jids] does. A [JID] is an
    immutable normalised value and [==] on it is equality. *)
Class JIDModule := {
  JID : Type;
  JID_eq_dec :: EqDecision JID;
  JID_new : string → option JID;
  JID_local : JID → option string;
  JID_domain : JID → string;
  are_domains_equal : string → string → bool;
}.

(** ** CertificateData *)

(** A naive [datetime]. *)
Record datetime := {
  dt_year : nat; dt_month : nat; dt_day : nat;
  dt_hour : nat; dt_minute : nat; dt_second : nat;
}.

Record CertificateData := {
  validated : bool;
  subject_name : option (list (list (string * string)));
  not_after : option datetime;
  common_names : option (list string);
  alt_names : gmap string (list string);
}.

(** [CertificateData.__init__] *)
Definition CertificateData_init : CertificateData := {|
  validated := false;
  subject_name := None;
  not_after := None;
  common_names := None;
  alt_names := ∅;
|}.

Definition set_common_names (c : CertificateData) (cn : option (list string))
  : CertificateData :=
  {| validated := validated c; subject_name := subject_name c;
     not_after := not_after c; common_names := cn;
     alt_names := alt_names c |}.

Definition set_subject_name (c : CertificateData)
    (sn : option (list (list (string * string)))) : CertificateData :=
  {| validated := validated c; subject_name := sn;
     not_after := not_after c; common_names := common_names c;
     alt_names := alt_names c |}.

Definition set_not_after (c : CertificateData) (t : option datetime)
  : CertificateData :=
  {| validated := validated c; subject_name := subject_name c;
     not_after := t; common_names := common_names c;
     alt_names := alt_names c |}.

Definition set_alt_names (c : CertificateData) (an : gmap string (list string))
  : CertificateData :=
  {| validated := validated c; subject_name := subject_name c;
     not_after := not_after c; common_names := common_names c;
     alt_names := an |}.

Definition set_validated (c : CertificateData) (v : bool) : CertificateData :=
  {| validated := v; subject_name := subject_name c;
     not_after := not_after c; common_names := common_names c;
     alt_names := alt_names c |}.

(** What [verify_client] hands back: [False], [None] or one of the JIDs. *)
Inductive client_result `{JIDModule} :=
| PyFalse
| PyNone
| PyJID (jid : JID).

Section Verification.
Context `{JIDModule}.

(** The [for addr in addrs] loop of [get_jids]; [result] is the list
    being appended to. *)
Fixpoint get_jids_loop (addrs : list string) (result : list JID) : list JID :=
  match addrs with
  | [] => result
  | addr :: rest =>
      match JID_new addr with
      | Some jid =>
          if bool_decide (jid ∈ result)
          then get_jids_loop rest result
          else get_jids_loop rest (result ++ [jid])
      | None => get_jids_loop rest result
      end
  end.

Definition get_jids (self : CertificateData) : list JID :=
  if has_key (alt_names self) "XmppAddr" || has_key (alt_names self) "DNS"
  then
    get_jids_loop
      (get_list (alt_names self) "XmppAddr" ++ get_list (alt_names self) "DNS")
      []
  else
    match common_names self with
    | Some ((_ :: _) as cns) =>
        get_jids_loop
          (List.filter (λ addr, negb (contains "@" addr) && negb (contains "/" addr))
                       cns)
          []
    | _ => []
    end.

(** The loop of [verify_jid_against_common_name]. *)
Fixpoint common_name_loop (jid : JID) (names : list string) : bool :=
  match names with
  | [] => false
  | name :: rest =>
      match JID_new name with
      | None => common_name_loop jid rest
      | Some cn_jid =>
          if bool_decide (jid = cn_jid) then true
          else common_name_loop jid rest
      end
  end.

Definition verify_jid_against_common_name (self : CertificateData) (jid : JID)
  : bool :=
  match common_names self with
  | None | Some [] => false
  | Some names => common_name_loop jid names
  end.

(** The loop of [verify_jid_against_srv_name]. *)
Fixpoint srv_name_loop (jid : JID) (srv_prefix : string) (srvs : list string)
  : bool :=
  match srvs with
  | [] => false
  | srv :: rest =>
      if negb (startswith srv srv_prefix) then srv_name_loop jid srv_prefix rest
      else
        match JID_new (slice_from (String.length srv_prefix) srv) with
        | None => srv_name_loop jid srv_prefix rest
        | Some srv_jid =>
            if bool_decide (srv_jid = jid) then true
            else srv_name_loop jid srv_prefix rest
        end
  end.

Definition verify_jid_against_srv_name (self : CertificateData) (jid : JID)
    (srv_type : string) : bool :=
  let srv_prefix := "_" +:+ srv_type +:+ "." in
  srv_name_loop jid srv_prefix (get_list (alt_names self) "SRV").

(** The DNS/XmppAddr scan of [verify_server]. The local [jid] is
    threaded through: [None] while it is unbound. The scan answers
    whether it returned [True] and what [jid] is bound to afterwards. *)
Fixpoint server_scan (server_jid : JID) (names : list string)
    (jid : option JID) : bool * option JID :=
  match names with
  | [] => (false, jid)
  | name :: rest =>
      match JID_new name with
      | None => server_scan server_jid rest jid
      | Some j =>
          if bool_decide (j = server_jid) then (true, Some j)
          else server_scan server_jid rest (Some j)
      end
  end.

Definition verify_server (self : CertificateData) (server_name : string)
    (srv_type : string) : outcome bool :=
  let* server_jid := lift JIDError (JID_new server_name) in
  if negb (has_key (alt_names self) "XmppAddr")
     && negb (has_key (alt_names self) "DNS")
     && negb (has_key (alt_names self) "SRV")
  then Return (verify_jid_against_common_name self server_jid)
  else
    match server_scan server_jid
            (get_list (alt_names self) "DNS"
             ++ get_list (alt_names self) "XmppAddr") None with
    | (true, _) => Return true
    | (false, jid) =>
        if truthy srv_type then
          let* jid := lift UnboundLocalError jid in
          Return (verify_jid_against_srv_name self jid srv_type)
        else Return false
    end.

(** [jid.local] as a truth value. *)
Definition has_local (jid : JID) : bool :=
  match JID_local jid with
  | Some s => truthy s
  | None => false
  end.

(** [for domain in domains] inside [verify_client]. *)
Fixpoint domain_loop (jid : JID) (domains : list string) : bool :=
  match domains with
  | [] => false
  | domain :: rest =>
      if are_domains_equal (JID_domain jid) domain then true
      else domain_loop jid rest
  end.

(** [for jid in jids] inside [verify_client]. *)
Fixpoint client_loop (jids : list JID) (domains : list string) : client_result :=
  match jids with
  | [] => PyNone
  | jid :: rest =>
      if domain_loop jid domains then PyJID jid
      else client_loop rest domains
  end.

Definition verify_client (self : CertificateData) (client_jid : option JID)
    (domains : option (list string)) : client_result :=
  let jids := List.filter has_local (get_jids self) in
  match jids with
  | [] => PyFalse
  | first :: _ =>
      let unrequested :=
        match domains with
        | None => PyJID first
        | Some ds => client_loop jids ds
        end in
      match client_jid with
      | Some cj => if bool_decide (cj ∈ jids) then PyJID cj else unrequested
      | None => unrequested
      end
  end.

End Verification.

(** ** The decoded certificate tree (pyasn1, [pyasn1_modules.rfc2459]) *)

(** An [ObjectIdentifier], compared and hashed as the tuple of its arcs. *)
Definition OID := list N.

Definition DN_OIDS : gmap OID string :=
  list_to_map [
    ([2; 5; 4; 41]%N, "Name");
    ([2; 5; 4; 4]%N, "Surname");
    ([2; 5; 4; 42]%N, "GivenName");
    ([2; 5; 4; 43]%N, "Initials");
    ([2; 5; 4; 3]%N, "CommonName");
    ([2; 5; 4; 7]%N, "LocalityName");
    ([2; 5; 4; 8]%N, "StateOrProvinceName");
    ([2; 5; 4; 10]%N, "OrganizationName");
    ([2; 5; 4; 11]%N, "OrganizationalUnitName");
    ([2; 5; 4; 12]%N, "Title");
    ([2; 5; 4; 6]%N, "CountryName")
  ].

Definition XMPPADDR_OID : OID := [1; 3; 6; 1; 5; 5; 7; 8; 5]%N.
Definition SRVNAME_OID : OID := [1; 3; 6; 1; 5; 5; 7; 8; 7]%N.
Definition SUBJECT_ALT_NAME_OID : OID := [2; 5; 29; 17]%N.

(** The character-string classes a decoded value can be an instance of. *)
Inductive char_type :=
| TeletexString
| PrintableString
| UniversalString
| UTF8String
| BMPString
| IA5String.

Record asn1_string := {
  str_type : char_type;
  str_octets : bytes;
}.

Record AttributeTypeAndValue := {
  atv_type : OID;
  atv_value : bytes;
}.

(** Iterating a [Name] yields its [RDNSequence]s, an [RDNSequence] its
    [RelativeDistinguishedName]s, and those their attributes. *)
Definition RelativeDistinguishedName := list AttributeTypeAndValue.
Definition RDNSequence := list RelativeDistinguishedName.
Definition Name := list RDNSequence.

(** The [GeneralName] choice: [getName()] is the constructor,
    [getComponent()] its argument. *)
Inductive GeneralName :=
| otherName (type_id : OID) (value : bytes)
| rfc822Name (comp : bytes)
| dNSName (comp : bytes)
| x400Address (comp : bytes)
| directoryName (comp : Name)
| ediPartyName (comp : bytes)
| uniformResourceIdentifier (comp : bytes)
| iPAddress (comp : bytes)
| registeredID (comp : OID).

(** [extn_is_Any]: whether [extnValue] came back as [Any] rather than
    as an [OctetString]. *)
Record Extension := {
  extnID : OID;
  extn_is_Any : bool;
  extnValue : bytes;
}.

(** [notAfter] holds [str(not_after.getComponent())]. *)
Record Validity := {
  notAfter : string;
}.

Record TBSCertificate := {
  subject : Name;
  validity : Validity;
  extensions : option (list Extension);
}.

Record Certificate := {
  tbsCertificate : TBSCertificate;
}.

(** [der_decoder.decode(data, asn1Spec = T())[0]], one function for each
    [T] the module asks for; [None] is the [PyAsn1Error] of a blob that
    does not parse. For [DirectoryString] the answer is the chosen
    alternative, what [getComponent()] gives. *)
Class DerDecoder := {
  der_decode_Certificate : bytes → option Certificate;
  der_decode_OctetString : bytes → option bytes;
  der_decode_GeneralNames : bytes → option (list GeneralName);
  der_decode_DirectoryString : bytes → option asn1_string;
  der_decode_UTF8String : bytes → option bytes;
  der_decode_IA5String : bytes → option bytes;
}.

(** [bytes.decode(codec)] for the two codecs used ([None] is
    [UnicodeError]) and [datetime.strptime(text, format)] ([None] is
    [ValueError]). *)
Class PyBuiltins := {
  decode_utf_8 : bytes → option string;
  decode_utf_16_be : bytes → option string;
  strptime : string → string → option datetime;
}.

(** What the module reads off an SSL socket. [has_getpeercert] is false
    on a runtime whose sockets lack the method ([AttributeError]);
    [getpeercert_binary] is [getpeercert(True)], [None] when the peer
    sent no certificate; [getpeercert_info] is the truth value of
    [getpeercert()]. *)
Record ssl_socket := {
  has_getpeercert : bool;
  getpeercert_binary : option bytes;
  getpeercert_info : bool;
}.

Section ASN1CertificateData.
Context `{DerDecoder} `{PyBuiltins}.

Definition _decode_asn1_string (data : asn1_string) : outcome string :=
  match str_type data with
  | BMPString => lift UnicodeError (decode_utf_16_be (str_octets data))
  | _ => lift UnicodeError (decode_utf_8 (str_octets data))
  end.

(** [for nameval in rdns]: the state is [self.common_names] and the
    local [rdnss_list]. *)
Fixpoint nameval_loop (rdns : RelativeDistinguishedName)
    (common_names : list string) (rdnss_list : list (string * string))
  : outcome (list string * list (string * string)) :=
  match rdns with
  | [] => Return (common_names, rdnss_list)
  | nameval :: rest =>
      let val_type := atv_type nameval in
      let value := atv_value nameval in
      match DN_OIDS !! val_type with
      | None => nameval_loop rest common_names rdnss_list
      | Some val_type =>
          let* value := lift PyAsn1Error (der_decode_DirectoryString value) in
          match _decode_asn1_string value with
          | Raise UnicodeError => nameval_loop rest common_names rdnss_list
          | Raise e => Raise e
          | Return value =>
              let common_names :=
                if String.eqb val_type "CommonName"
                then common_names ++ [value] else common_names in
              nameval_loop rest common_names (rdnss_list ++ [(val_type, value)])
          end
      end
  end.

(** [for rdns in rdnss] *)
Fixpoint rdns_loop (rdnss : RDNSequence) (common_names : list string)
    (subject_name : list (list (string * string)))
  : outcome (list string * list (list (string * string))) :=
  match rdnss with
  | [] => Return (common_names, subject_name)
  | rdns :: rest =>
      let* st := nameval_loop rdns common_names [] in
      rdns_loop rest st.1 (subject_name ++ [st.2])
  end.

(** [for rdnss in subject] *)
Fixpoint rdnss_loop (subject : Name) (common_names : list string)
    (subject_name : list (list (string * string)))
  : outcome (list string * list (list (string * string))) :=
  match subject with
  | [] => Return (common_names, subject_name)
  | rdnss :: rest =>
      let* st := rdns_loop rdnss common_names subject_name in
      rdnss_loop rest st.1 st.2
  end.

Definition _decode_subject (self : CertificateData) (subject : Name)
  : outcome CertificateData :=
  let* st := rdnss_loop subject [] [] in
  Return (set_subject_name (set_common_names self (Some st.1)) (Some st.2)).

(** The [isinstance] test is made on a [str] and so never holds: the
    two-digit-year format is the one used. It is kept as a test on a
    constant for the shape of the code. *)
Definition _decode_validity (self : CertificateData) (validity : Validity)
  : outcome CertificateData :=
  let not_after := notAfter validity in
  let is_GeneralizedTime := false in
  let* t := lift ValueError
              (if is_GeneralizedTime
               then strptime not_after "%Y%m%d%H%M%SZ"
               else strptime not_after "%y%m%d%H%M%SZ") in
  Return (set_alt_names (set_not_after self (Some t)) ∅).

(** [self.alt_names[key].append(value)] on the [defaultdict(list)] that
    [_decode_validity] installed. *)
Definition alt_names_append (alt_names : gmap string (list string))
    (key value : string) : gmap string (list string) :=
  <[key := get_list alt_names key ++ [value]]> alt_names.

(** The loop of [_decode_alt_names], on [self.alt_names]. *)
Fixpoint alt_name_loop (alt_names : list GeneralName)
    (self_alt_names : gmap string (list string))
  : outcome (gmap string (list string)) :=
  match alt_names with
  | [] => Return self_alt_names
  | alt_name :: rest =>
      match alt_name with
      | dNSName comp =>
          let key := "DNS" in
          let* value := _decode_asn1_string
                          {| str_type := IA5String; str_octets := comp |} in
          alt_name_loop rest (alt_names_append self_alt_names key value)
      | uniformResourceIdentifier comp =>
          let key := "URI" in
          let* value := _decode_asn1_string
                          {| str_type := IA5String; str_octets := comp |} in
          alt_name_loop rest (alt_names_append self_alt_names key value)
      | otherName oid value =>
          if decide (oid = XMPPADDR_OID) then
            let key := "XmppAddr" in
            let* value := lift PyAsn1Error (der_decode_UTF8String value) in
            let* value := _decode_asn1_string
                            {| str_type := UTF8String; str_octets := value |} in
            alt_name_loop rest (alt_names_append self_alt_names key value)
          else if decide (oid = SRVNAME_OID) then
            let key := "SRVName" in
            let* value := lift PyAsn1Error (der_decode_IA5String value) in
            let* value := _decode_asn1_string
                            {| str_type := IA5String; str_octets := value |} in
            alt_name_loop rest (alt_names_append self_alt_names key value)
          else alt_name_loop rest self_alt_names
      | _ => alt_name_loop rest self_alt_names
      end
  end.

Definition _decode_alt_names (self : CertificateData)
    (general_names : list GeneralName) : outcome CertificateData :=
  let* self_alt_names := alt_name_loop general_names (alt_names self) in
  Return (set_alt_names self self_alt_names).

(** [for extension in extensions] inside [from_der_data]. *)
Fixpoint extension_loop (extensions : list Extension) (result : CertificateData)
  : outcome CertificateData :=
  match extensions with
  | [] => Return result
  | extension :: rest =>
      let oid := extnID extension in
      if decide (oid ≠ SUBJECT_ALT_NAME_OID) then extension_loop rest result
      else
        let value := extnValue extension in
        let* value :=
          if extn_is_Any extension
          then lift PyAsn1Error (der_decode_OctetString value)
          else Return value in
        let* alt_names := lift PyAsn1Error (der_decode_GeneralNames value) in
        let* result := _decode_alt_names result alt_names in
        extension_loop rest result
  end.

Definition from_der_data (data : bytes) : outcome CertificateData :=
  let* cert := lift PyAsn1Error (der_decode_Certificate data) in
  let result := CertificateData_init in
  let tbs_cert := tbsCertificate cert in
  let* result := _decode_subject result (subject tbs_cert) in
  let* result := _decode_validity result (validity tbs_cert) in
  match extensions tbs_cert with
  | Some ((_ :: _) as extensions) => extension_loop extensions result
  | _ => Return result
  end.

Definition from_ssl_socket (ssl_socket : ssl_socket) : outcome CertificateData :=
  let data :=
    if has_getpeercert ssl_socket then getpeercert_binary ssl_socket
    else None in
  match data with
  | None | Some [] => Return CertificateData_init
  | Some data =>
      let* result := from_der_data data in
      Return (set_validated result (getpeercert_info ssl_socket))
  end.

End ASN1CertificateData.

(** ** An executable runtime for the examples

    The interfaces above are instantiated once, with small total
    functions, so that the decision procedures can be run on concrete
    certificates. *)
Module Example.

(** *** JIDs *)

Record simple_jid := {
  sj_local : option string;
  sj_domain : string;
  sj_resource : option string;
}.

#[global] Instance simple_jid_eq_dec : EqDecision simple_jid.
Proof. solve_decision. Defined.

(** [s.split(sep, 1)]: the text before the first [sep] and, when there
    is one, the text after it. *)
Fixpoint split_once (sep : ascii) (s : string) : string * option string :=
  match s with
  | EmptyString => (EmptyString, None)
  | String c s' =>
      if decide (c = sep) then (EmptyString, Some s')
      else
        let r := split_once sep s' in
        (String c r.1, r.2)
  end.

Definition lower_ascii (c : ascii) : ascii :=
  let n := nat_of_ascii c in
  if (65 <=? n) && (n <=? 90) then ascii_of_nat (n + 32) else c.

Fixpoint lower (s : string) : string :=
  match s with
  | EmptyString => EmptyString
  | String c s' => String (lower_ascii c) (lower s')
  end.

Definition nonempty (s : string) : option string :=
  if truthy s then Some s else None.

(** Modelled from the spec: the JID value type of [pyxmpp2.jid], which
    is not among the sources. The spec gives a JID the form
    [local@domain/resource], a constructor from text that fails on
    malformed input, accessors for the parts and a case-insensitive
    domain equality. Here the text is cut at the first ["/"] and then
    at the first ["@"], an empty local part or resource is absent, the
    domain is folded to lower case and must not be empty. *)
Definition simple_jid_new (s : string) : option simple_jid :=
  let parts1 := split_once "/" s in
  let parts2 := split_once "@" parts1.1 in
  let local := match parts2.2 with Some _ => nonempty parts2.1 | None => None end in
  let domain := match parts2.2 with Some d => d | None => parts2.1 end in
  let resource := parts1.2 ≫= nonempty in
  if truthy domain
  then Some {| sj_local := local; sj_domain := lower domain;
               sj_resource := resource |}
  else None.

#[global] Instance simple_jid_module : JIDModule := {|
  JID := simple_jid;
  JID_new := simple_jid_new;
  JID_local := sj_local;
  JID_domain := sj_domain;
  are_domains_equal := λ a b, bool_decide (lower a = lower b);
|}.

(** *** Text codecs: the ASCII fragment *)

Definition is_ascii (b : byte) : bool := Byte.to_nat b <? 128.

Definition ascii_decode (data : bytes) : option string :=
  if forallb is_ascii data then Some (String.string_of_list_byte data) else None.

(** Big-endian UTF-16 of ASCII text: a zero octet before each one. *)
Fixpoint ascii_decode_16 (data : bytes) : option (list byte) :=
  match data with
  | [] => Some []
  | hi :: lo :: rest =>
      if bool_decide (hi = x00) && is_ascii lo
      then cons lo <$> ascii_decode_16 rest
      else None
  | _ => None
  end.

(** *** [strptime] for the two formats of [_decode_validity] *)

Definition digit (c : ascii) : option nat :=
  let n := nat_of_ascii c in
  if (48 <=? n) && (n <=? 57) then Some (n - 48) else None.

Fixpoint digits (k : nat) (s : string) (acc : nat) : option (nat * string) :=
  match k with
  | O => Some (acc, s)
  | S k' =>
      match s with
      | EmptyString => None
      | String c s' => d ← digit c; digits k' s' (10 * acc + d)
      end
  end.

Definition example_strptime (text format : string) : option datetime :=
  ylen ← (if decide (format = "%y%m%d%H%M%SZ") then Some 2
          else if decide (format = "%Y%m%d%H%M%SZ") then Some 4 else None);
  y ← digits ylen text 0;
  mo ← digits 2 y.2 0;
  d ← digits 2 mo.2 0;
  h ← digits 2 d.2 0;
  mi ← digits 2 h.2 0;
  se ← digits 2 mi.2 0;
  let year :=
    if decide (ylen = 4) then y.1
    else if y.1 <? 69 then 2000 + y.1 else 1900 + y.1 in
  if bool_decide (se.2 = "Z")
     && (1 <=? mo.1) && (mo.1 <=? 12) && (1 <=? d.1) && (d.1 <=? 31)
     && (h.1 <? 24) && (mi.1 <? 60) && (se.1 <? 62)
  then Some {| dt_year := year; dt_month := mo.1; dt_day := d.1;
               dt_hour := h.1; dt_minute := mi.1; dt_second := se.1 |}
  else None.

#[global] Instance ascii_builtins : PyBuiltins := {|
  decode_utf_8 := ascii_decode;
  decode_utf_16_be := λ data, String.string_of_list_byte <$> ascii_decode_16 data;
  strptime := example_strptime;
|}.

(** *** DER: definite short-form values

    One tag octet, one length octet below 128, then exactly that many
    content octets. *)
Definition der_short (tag : byte) (data : bytes) : option bytes :=
  match data with
  | t :: len :: content =>
      if bool_decide (t = tag) && (Byte.to_nat len <? 128)
         && (Byte.to_nat len =? length content)
      then Some content else None
  | _ => None
  end.

Definition der_directory_string (data : bytes) : option asn1_string :=
  match data with
  | t :: _ =>
      ty ← (if decide (t = x14) then Some TeletexString
            else if decide (t = x13) then Some PrintableString
            else if decide (t = x1c) then Some UniversalString
            else if decide (t = x0c) then Some UTF8String
            else if decide (t = x1e) then Some BMPString
            else None);
      content ← der_short t data;
      Some {| str_type := ty; str_octets := content |}
  | [] => None
  end.

(** The elements of a [GeneralNames] value with a primitive context
    tag; the constructed alternatives are outside the fragment. *)
Fixpoint der_general_name_list (fuel : nat) (data : bytes)
  : option (list GeneralName) :=
  match fuel, data with
  | _, [] => Some []
  | S fuel', t :: len :: rest =>
      let n := Byte.to_nat len in
      if (n <? 128) && (n <=? length rest) then
        let comp := take n rest in
        gn ← (if decide (t = x81) then Some (rfc822Name comp)
              else if decide (t = x82) then Some (dNSName comp)
              else if decide (t = x86) then Some (uniformResourceIdentifier comp)
              else if decide (t = x87) then Some (iPAddress comp)
              else None);
        cons gn <$> der_general_name_list fuel' (drop n rest)
      else None
  | _, _ => None
  end.

Definition der_general_names (data : bytes) : option (list GeneralName) :=
  content ← der_short x30 data;
  match content with
  | [] => None
  | _ => der_general_name_list (length content) content
  end.

(** A certificate never fits a short-form length, so the fragment has
    no [Certificate] value. *)
#[global] Instance short_der : DerDecoder := {|
  der_decode_Certificate := λ _, None;
  der_decode_OctetString := der_short x04;
  der_decode_GeneralNames := der_general_names;
  der_decode_DirectoryString := der_directory_string;
  der_decode_UTF8String := der_short x0c;
  der_decode_IA5String := der_short x16;
|}.

(** *** Example certificates and sockets *)

Definition certificate (cn : option (list string))
    (an : list (string * list string)) : CertificateData :=
  {| validated := true; subject_name := None; not_after := None;
     common_names := cn; alt_names := list_to_map an |}.

(** A [DNS] name for another host and an [SRV] name for the host. *)
Definition srv_certificate : CertificateData :=
  certificate None
    [("DNS", ["other.com"]); ("SRV", ["_xmpp-client.example.com"])].

(** Only an [SRV] name. *)
Definition srv_only_certificate : CertificateData :=
  certificate None [("SRV", ["_xmpp-client.example.com"])].

(** Two client addresses. *)
Definition two_clients_certificate : CertificateData :=
  certificate None [("XmppAddr", ["b@x"; "a@x"])].

(** A domain, two clients of different domains and a repetition. *)
Definition mixed_certificate : CertificateData :=
  certificate (Some ["ignored.example"])
    [("XmppAddr", ["b@x.org"; "a@Example.COM"; "b@x.org"]);
     ("DNS", ["example.com"])].

(** A [DNS] key with nothing under it, and a usable common name. *)
Definition empty_dns_certificate : CertificateData :=
  certificate (Some ["example.com"]) [("DNS", [])].

(** No alternative names, one common name. *)
Definition common_name_certificate : CertificateData :=
  certificate (Some ["user@example.com"; "example.com"]) [].

(** The DER of a short string: its tag, its length, its octets. *)
Definition der_of (tag : byte) (text : string) : bytes :=
  let octets := String.list_byte_of_string text in
  tag :: default x00 (Byte.of_nat (length octets)) :: octets.


(** A subject of two RDNs. The second has an organisation, an attribute
    whose OID is not in the table (an e-mail address, with a value that
    is no DirectoryString), a common name whose octets are not text and
    a common name in UTF-16. *)
Definition example_subject : Name :=
  [ [ [ {| atv_type := [2; 5; 4; 6]%N; atv_value := der_of x13 "PL" |} ];
      [ {| atv_type := [2; 5; 4; 10]%N; atv_value := der_of x0c "Example" |};
        {| atv_type := [1; 2; 840; 113549; 1; 9; 1]%N;
           atv_value := der_of x16 "admin@example.com" |};
        {| atv_type := [2; 5; 4; 3]%N; atv_value := [x0c; x01; xff] |};
        {| atv_type := [2; 5; 4; 3]%N;
           atv_value := [x1e; x04; x00; x61; x00; x62] |} ] ] ].

(** One client address and nothing else. *)
Definition client_certificate : CertificateData :=
  certificate None [("XmppAddr", ["user@example.com"])].

(** One common name and no alternative names. *)
Definition host_certificate : CertificateData :=
  certificate (Some ["example.com"]) [].

(** A socket whose peer sent no certificate. *)
Definition no_certificate_socket : ssl_socket :=
  {| has_getpeercert := true; getpeercert_binary := None;
     getpeercert_info := false |}.

End Example.

(** ** Specification-side definitions *)

(** A list without its repetitions, every element at the place where it
    is first seen. *)
Fixpoint first_seen {A} `{EqDecision A} (l : list A) : list A :=
  match l with
  | [] => []
  | x :: l' => x :: filter (λ y, y ≠ x) (first_seen l')
  end.

(** The candidate address strings of a certificate: the [XmppAddr]
    entries followed by the [DNS] entries when one of the two keys is
    there, else the common names that have neither ["@"] nor ["/"]. *)
Definition candidates (c : CertificateData) : list string :=
  if bool_decide ("XmppAddr" ∈ dom (alt_names c) ∨ "DNS" ∈ dom (alt_names c))
  then get_list (alt_names c) "XmppAddr" ++ get_list (alt_names c) "DNS"
  else
    filter (λ addr, contains "@" addr = false ∧ contains "/" addr = false)
           (default [] (common_names c)).

(** The guard of the common-name path of [verify_server]. *)
Definition no_alt_keys (c : CertificateData) : bool :=
  negb (has_key (alt_names c) "XmppAddr")
  && negb (has_key (alt_names c) "DNS")
  && negb (has_key (alt_names c) "SRV").

Section decoded_names.
Context `{DerDecoder} `{PyBuiltins}.

(** The text of a character string: UTF-16 for a [BMPString], UTF-8
    for the other classes; [None] when the octets are not text. *)
Definition asn1_text (data : asn1_string) : option string :=
  match str_type data with
  | BMPString => decode_utf_16_be (str_octets data)
  | _ => decode_utf_8 (str_octets data)
  end.

(** The pair a subject attribute stands for: the name of its OID in
    the table and the text of its value. *)
Definition attribute_pair (nameval : AttributeTypeAndValue)
  : option (string * string) :=
  name ← DN_OIDS !! atv_type nameval;
  value ← der_decode_DirectoryString (atv_value nameval);
  text ← asn1_text value;
  Some (name, text).

(** An attribute of a known type has a value that is DER of a
    [DirectoryString]. *)
Definition value_is_der (nameval : AttributeTypeAndValue) : Prop :=
  is_Some (DN_OIDS !! atv_type nameval) →
  is_Some (der_decode_DirectoryString (atv_value nameval)).

(** The value of an attribute pair when it is a common name. *)
Definition common_name_of (nameval : AttributeTypeAndValue) : option string :=
  pair ← attribute_pair nameval;
  if decide (pair.1 = "CommonName") then Some pair.2 else None.

(** The category an element of SubjectAltName is filed under; [None]
    for the elements that are not interpreted. *)
Definition general_name_category (gn : GeneralName) : option string :=
  match gn with
  | dNSName _ => Some "DNS"
  | uniformResourceIdentifier _ => Some "URI"
  | otherName oid _ =>
      if decide (oid = XMPPADDR_OID) then Some "XmppAddr"
      else if decide (oid = SRVNAME_OID) then Some "SRVName"
      else None
  | _ => None
  end.

(** The text an interpreted element carries; [None] when its value is
    not DER of the expected string type or not UTF-8. *)
Definition general_name_text (gn : GeneralName) : option string :=
  match gn with
  | dNSName comp | uniformResourceIdentifier comp => decode_utf_8 comp
  | otherName oid value =>
      if decide (oid = XMPPADDR_OID)
      then der_decode_UTF8String value ≫= decode_utf_8
      else if decide (oid = SRVNAME_OID)
      then der_decode_IA5String value ≫= decode_utf_8
      else None
  | _ => None
  end.


End decoded_names.

(** ** The display name *)

(** [sep.join(parts)] *)
Fixpoint join (sep : string) (parts : list string) : string :=
  match parts with
  | [] => ""
  | part :: rest =>
      match rest with
      | [] => part
      | _ :: _ => part +:+ sep +:+ join sep rest
      end
  end.

(** [u"{0}={1}".format(k, v)] *)
Definition format_pair (kv : string * string) : string :=
  kv.1 +:+ "=" +:+ kv.2.

(** [for name_type in ("XmppAddr", "DNS", "SRV")] of [display_name],
    with the [return u"<unknown>"] that follows it. *)
Fixpoint display_name_loop (alt_names : gmap string (list string))
    (name_types : list string) : string :=
  match name_types with
  | [] => "<unknown>"
  | name_type :: rest =>
      match alt_names !! name_type with
      | Some (name :: _) => name
      | _ => display_name_loop alt_names rest
      end
  end.

Definition display_name (self : CertificateData) : string :=
  match subject_name self with
  | Some ((_ :: _) as dn_tuples) =>
      join ", " ((λ dn_tuple, join ", " (format_pair <$> dn_tuple)) <$> dn_tuples)
  | _ => display_name_loop (alt_names self) ["XmppAddr"; "DNS"; "SRV"]
  end.

(** ** BasicCertificateData: what the ssl module itself reports *)

(** The dict of [ssl_socket.getpeercert()]: the three keys the module
    reads, absent when [None], and whether the dict has any other key.
    Names and values are the byte strings of Python 2, the language of
    the module, where [sys.version_info.major < 3] holds and
    [_decode_names] is always run. *)
Record peercert := {
  pc_subject : option (list (list (bytes * bytes)));
  pc_subjectAltName : option (list (bytes * bytes));
  pc_notAfter : option bytes;
  pc_other_keys : bool;
}.

(** Truth value of the dict: whether it has a key. *)
Definition peercert_truthy (data : peercert) : bool :=
  bool_decide (is_Some (pc_subject data))
  || bool_decide (is_Some (pc_subjectAltName data))
  || bool_decide (is_Some (pc_notAfter data))
  || pc_other_keys data.

(** The socket as [BasicCertificateData] sees it: [basic_getpeercert] is
    [getpeercert()], the dict or [None]. *)
Record basic_ssl_socket := {
  basic_has_getpeercert : bool;
  basic_getpeercert : option peercert;
}.

(** [ssl.cert_time_to_seconds] and [datetime.utcfromtimestamp]; [None]
    is the [ValueError] of a text that is no time, or of a time out of
    range. *)
Class SslModule := {
  cert_time_to_seconds : bytes → option Z;
  utcfromtimestamp : Z → option datetime;
}.

(** A dict key given as a byte string. *)
Definition key_of (name : bytes) : string := String.string_of_list_byte name.

Module BasicCertificateData.
Section BasicCertificateData.
Context `{PyBuiltins} `{SslModule}.

(** [for name, value in part] of [_decode_names]: [new_part] collects
    the pairs whose name and value both decode. *)
Fixpoint decode_part_loop (part : list (bytes * bytes))
    (new_part : list (string * string)) : list (string * string) :=
  match part with
  | [] => new_part
  | (name, value) :: rest =>
      match decode_utf_8 name with
      | None => decode_part_loop rest new_part
      | Some name =>
          match decode_utf_8 value with
          | None => decode_part_loop rest new_part
          | Some value => decode_part_loop rest (new_part ++ [(name, value)])
          end
      end
  end.

(** [for part in self.subject_name] of [_decode_names]. *)
Fixpoint decode_subject_loop (parts : list (list (bytes * bytes)))
    (subject_name : list (list (string * string)))
  : list (list (string * string)) :=
  match parts with
  | [] => subject_name
  | part :: rest =>
      decode_subject_loop rest (subject_name ++ [decode_part_loop part []])
  end.

(** [for name in old] of [_decode_names]. *)
Fixpoint decode_old_loop (old : list bytes) (new : list string) : list string :=
  match old with
  | [] => new
  | name :: rest =>
      match decode_utf_8 name with
      | None => decode_old_loop rest new
      | Some name => decode_old_loop rest (new ++ [name])
      end
  end.

(** [_decode_names], from the undecoded subject and alternative names
    to the decoded ones. Every key of [alt_names] gets its new list. *)
Definition _decode_names
    (subject_name : option (list (list (bytes * bytes))))
    (alt_names : gmap string (list bytes))
  : option (list (list (string * string))) * gmap string (list string) :=
  let subject_name :=
    match subject_name with
    | Some parts => Some (decode_subject_loop parts [])
    | None => None
    end in
  (subject_name, (λ old, decode_old_loop old []) <$> alt_names).

(** [for name, value in data['subjectAltName']], on the
    [defaultdict(list)]. *)
Fixpoint alt_name_pairs_loop (pairs : list (bytes * bytes))
    (alt_names : gmap string (list bytes)) : gmap string (list bytes) :=
  match pairs with
  | [] => alt_names
  | (name, value) :: rest =>
      alt_name_pairs_loop rest
        (<[key_of name := default [] (alt_names !! key_of name) ++ [value]]>
           alt_names)
  end.

(** [for name, value in part] of the common-name collection. *)
Fixpoint common_name_part_loop (part : list (string * string))
    (common_names : list string) : list string :=
  match part with
  | [] => common_names
  | (name, value) :: rest =>
      if String.eqb name "commonName"
      then common_name_part_loop rest (common_names ++ [value])
      else common_name_part_loop rest common_names
  end.

(** [for part in cert.subject_name] of the common-name collection. *)
Fixpoint common_name_parts_loop (parts : list (list (string * string)))
    (common_names : list string) : list string :=
  match parts with
  | [] => common_names
  | part :: rest =>
      common_name_parts_loop rest (common_name_part_loop part common_names)
  end.

Definition from_ssl_socket (ssl_socket : basic_ssl_socket)
  : outcome CertificateData :=
  let cert := CertificateData_init in
  if negb (basic_has_getpeercert ssl_socket) then Return cert
  else
    match basic_getpeercert ssl_socket with
    | None => Return cert
    | Some data =>
        if negb (peercert_truthy data) then Return cert
        else
          let validated := true in
          let subject_name := pc_subject data in
          let alt_names :=
            match pc_subjectAltName data with
            | Some pairs => alt_name_pairs_loop pairs ∅
            | None => ∅
            end in
          let* not_after :=
            match pc_notAfter data with
            | Some text =>
                let* tstamp := lift ValueError (cert_time_to_seconds text) in
                let* t := lift ValueError (utcfromtimestamp tstamp) in
                Return (Some t)
            | None => Return (not_after cert)
            end in
          let decoded := _decode_names subject_name alt_names in
          let common_names :=
            match decoded.1 with
            | Some ((_ :: _) as parts) => common_name_parts_loop parts []
            | _ => []
            end in
          Return {| validated := validated;
                    subject_name := decoded.1;
                    not_after := not_after;
                    common_names := Some common_names;
                    alt_names := decoded.2 |}
    end.

End BasicCertificateData.
End BasicCertificateData.

(** ** Further sample data *)

Module Sample.

(** *** Calendar arithmetic for the sample [ssl] module *)

(** Days from 1970-01-01 to a date of the proleptic Gregorian calendar. *)
Definition days_from_civil (y m d : Z) : Z :=
  let y := (if m <=? 2 then y - 1 else y)%Z in
  let era := (y / 400)%Z in
  let yoe := (y - era * 400)%Z in
  let mp := (if 2 <? m then m - 3 else m + 9)%Z in
  let doy := ((153 * mp + 2) / 5 + d - 1)%Z in
  let doe := (yoe * 365 + yoe / 4 - yoe / 100 + doy)%Z in
  (era * 146097 + doe - 719468)%Z.

(** The date that many days after 1970-01-01. *)
Definition civil_from_days (z : Z) : Z * Z * Z :=
  let z := (z + 719468)%Z in
  let era := (z / 146097)%Z in
  let doe := (z - era * 146097)%Z in
  let yoe := ((doe - doe / 1460 + doe / 36524 - doe / 146096) / 365)%Z in
  let doy := (doe - (365 * yoe + yoe / 4 - yoe / 100))%Z in
  let mp := ((5 * doy + 2) / 153)%Z in
  let d := (doy - (153 * mp + 2) / 5 + 1)%Z in
  let m := (if mp <? 10 then mp + 3 else mp - 9)%Z in
  let y := (yoe + era * 400 + (if m <=? 2 then 1 else 0))%Z in
  (y, m, d).

Definition month_number (name : string) : option Z :=
  (list_find (λ m, m = name)
     ["Jan"; "Feb"; "Mar"; "Apr"; "May"; "Jun";
      "Jul"; "Aug"; "Sep"; "Oct"; "Nov"; "Dec"])
  ≫= λ im, Some (Z.of_nat im.1 + 1)%Z.

(** A number in decimal digits, with one blank allowed in front. *)
Definition number (s : string) : option Z :=
  let digits :=
    match String.list_ascii_of_string s with
    | c :: rest => if bool_decide (c = " "%char) then rest else c :: rest
    | [] => []
    end in
  match digits with
  | [] => None
  | _ =>
      foldl (λ acc c,
               n ← acc;
               d ← Example.digit c;
               Some (10 * n + Z.of_nat d)%Z)
            (Some 0%Z) digits
  end.

(** Seconds since the epoch of a time written as
    ["Jan  1 00:00:00 2030 GMT"]. *)
Definition sample_cert_time_to_seconds (text : bytes) : option Z :=
  let s := String.string_of_list_byte text in
  if negb (String.length s =? 24) then None
  else if negb (bool_decide (String.substring 3 1 s = " "
                             ∧ String.substring 6 1 s = " "
                             ∧ String.substring 9 1 s = ":"
                             ∧ String.substring 12 1 s = ":"
                             ∧ String.substring 15 1 s = " "
                             ∧ String.substring 20 4 s = " GMT"))
  then None
  else
    mo ← month_number (String.substring 0 3 s);
    d ← number (String.substring 4 2 s);
    h ← number (String.substring 7 2 s);
    mi ← number (String.substring 10 2 s);
    se ← number (String.substring 13 2 s);
    y ← number (String.substring 16 4 s);
    Some (days_from_civil y mo d * 86400 + h * 3600 + mi * 60 + se)%Z.

Definition sample_utcfromtimestamp (tstamp : Z) : option datetime :=
  let days := (tstamp / 86400)%Z in
  let secs := (tstamp mod 86400)%Z in
  let '(y, m, d) := civil_from_days days in
  if ((1 <=? y) && (y <=? 9999))%Z
  then Some {| dt_year := Z.to_nat y; dt_month := Z.to_nat m;
               dt_day := Z.to_nat d;
               dt_hour := Z.to_nat (secs / 3600);
               dt_minute := Z.to_nat ((secs mod 3600) / 60);
               dt_second := Z.to_nat (secs mod 60) |}
  else None.

#[global] Instance sample_ssl : SslModule := {|
  cert_time_to_seconds := sample_cert_time_to_seconds;
  utcfromtimestamp := sample_utcfromtimestamp;
|}.

Definition b (s : string) : bytes := String.list_byte_of_string s.

(** *** A decoder that knows one certificate *)

(** The decoded form of the one certificate: the subject of the
    examples, an expiry date, a key-usage extension and a
    SubjectAltName with two DNS names and an address. *)
Definition sample_certificate : Certificate :=
  {| tbsCertificate :=
       {| subject := Example.example_subject;
          validity := {| notAfter := "300101000000Z" |};
          extensions :=
            Some [ {| extnID := [2; 5; 29; 15]%N; extn_is_Any := false;
                      extnValue := [x03; x02; x05; xa0] |};
                   {| extnID := SUBJECT_ALT_NAME_OID; extn_is_Any := false;
                      extnValue :=
                        Example.der_of x30
                          (String.string_of_list_byte
                             (x82 :: x0b :: b "example.com"
                              ++ x87 :: x04 :: [x7f; x00; x00; x01]
                              ++ x82 :: x09 :: b "other.com")) |} ] |} |}.

(** The octets standing for it. *)
Definition sample_der : bytes := b "sample-certificate".

(** A second certificate, with the same subject and without a
    SubjectAltName, and the octets standing for it. *)
Definition plain_certificate : Certificate :=
  {| tbsCertificate :=
       {| subject := Example.example_subject;
          validity := {| notAfter := "300101000000Z" |};
          extensions :=
            Some [ {| extnID := [2; 5; 29; 15]%N; extn_is_Any := false;
                      extnValue := [x03; x02; x05; xa0] |} ] |} |}.

Definition plain_der : bytes := b "plain-certificate".

(** The short-form decoder of the examples, with a [Certificate]
    grammar that reads [sample_der] and [plain_der] and nothing else. *)
Definition sample_decoder : DerDecoder := {|
  der_decode_Certificate :=
    λ data, if bool_decide (data = sample_der) then Some sample_certificate
            else if bool_decide (data = plain_der) then Some plain_certificate
            else None;
  der_decode_OctetString := Example.der_short x04;
  der_decode_GeneralNames := Example.der_general_names;
  der_decode_DirectoryString := Example.der_directory_string;
  der_decode_UTF8String := Example.der_short x0c;
  der_decode_IA5String := Example.der_short x16;
|}.

(** A socket with that certificate, which the ssl module validated. *)
Definition sample_socket : ssl_socket :=
  {| has_getpeercert := true; getpeercert_binary := Some sample_der;
     getpeercert_info := true |}.

(** *** Certificates *)

(** A DNS name for another host and an SRV name for that other host. *)
Definition foreign_srv_certificate : CertificateData :=
  Example.certificate None
    [("DNS", ["other.com"]); ("SRV", ["_xmpp-client.other.com"])].

(** DNS names that are no JIDs. *)
Definition unparsable_dns_certificate : CertificateData :=
  Example.certificate (Some ["example.com"]) [("DNS", ["/"; "@"])].

(** A subject of two RDNs and an address. *)
Definition named_certificate : CertificateData :=
  {| validated := true;
     subject_name :=
       Some [ [("countryName", "PL")];
              [("organizationName", "Example"); ("commonName", "example.com")] ];
     not_after := None;
     common_names := Some ["example.com"];
     alt_names := list_to_map [("XmppAddr", ["user@example.com"])] |}.

(** No subject, an empty XmppAddr list, a DNS name and an SRV name. *)
Definition unnamed_certificate : CertificateData :=
  Example.certificate None
    [("XmppAddr", []); ("DNS", ["example.com"; "www.example.com"]);
     ("SRV", ["_xmpp-client.example.com"])].

(** *** What the ssl module reports *)

Definition sample_peercert : peercert :=
  {| pc_subject :=
       Some [ [(b "countryName", b "PL")];
              [(b "commonName", b "example.com");
               (b "commonName", [xff; xfe]);
               (b "organizationName", b "Example")];
              [(b "commonName", b "www.example.com")] ];
     pc_subjectAltName :=
       Some [ (b "DNS", b "example.com"); (b "email", b "root@example.com");
              (b "DNS", [xff]); (b "DNS", b "www.example.com") ];
     pc_notAfter := Some (b "Jan  1 00:00:00 2030 GMT");
     pc_other_keys := true |}.

(** A report whose only alternative name is not text. *)
Definition garbled_peercert : peercert :=
  {| pc_subject := Some [ [(b "commonName", b "example.com")] ];
     pc_subjectAltName := Some [ (b "DNS", [xff]) ];
     pc_notAfter := None;
     pc_other_keys := false |}.

(** *** A certificate whose common name is no string *)

(** A subject with a country, an attribute whose OID is not in the
    table, and a common name whose value is the DER of the INTEGER 5. *)
Definition integer_subject : Name :=
  [ [ [ {| atv_type := [2; 5; 4; 6]%N;
           atv_value := Example.der_of x13 "PL" |};
        {| atv_type := [1; 2; 840; 113549; 1; 9; 1]%N;
           atv_value := Example.der_of x16 "admin@example.com" |};
        {| atv_type := [2; 5; 4; 3]%N; atv_value := [x02; x01; x05] |} ] ] ].

Definition integer_certificate : Certificate :=
  {| tbsCertificate :=
       {| subject := integer_subject;
          validity := {| notAfter := "300101000000Z" |};
          extensions := None |} |}.

Definition integer_der : bytes := b "integer-certificate".

(** The short-form decoder of the examples, with a [Certificate]
    grammar that reads [integer_der] and nothing else. *)
Definition integer_decoder : DerDecoder := {|
  der_decode_Certificate :=
    λ data, if bool_decide (data = integer_der) then Some integer_certificate
            else None;
  der_decode_OctetString := Example.der_short x04;
  der_decode_GeneralNames := Example.der_general_names;
  der_decode_DirectoryString := Example.der_directory_string;
  der_decode_UTF8String := Example.der_short x0c;
  der_decode_IA5String := Example.der_short x16;
|}.

Definition basic_socket (data : option peercert) : basic_ssl_socket :=
  {| basic_has_getpeercert := true; basic_getpeercert := data |}.

End Sample.

(** ** Further specification-side definitions *)

(** A name of the certificate that parses to [jid]. *)
Definition names_jid `{JIDModule} (jid : JID) (names : list string) : Prop :=
  ∃ name, name ∈ names ∧ JID_new name = Some jid.

(** An SRV name for [jid] and the service [srv_type]: the prefix
    ["_<srv_type>."] followed by a text that parses to [jid]. *)
Definition srv_names_jid `{JIDModule} (jid : JID) (srv_type : string)
    (srvs : list string) : Prop :=
  ∃ srv, srv ∈ srvs
         ∧ startswith srv ("_" +:+ srv_type +:+ ".") = true
         ∧ JID_new (slice_from (String.length ("_" +:+ srv_type +:+ ".")) srv)
           = Some jid.

(** The DNS names followed by the XmppAddr names, as [verify_server]
    scans them. *)
Definition scanned_names (c : CertificateData) : list string :=
  get_list (alt_names c) "DNS" ++ get_list (alt_names c) "XmppAddr".

(** The decoded pair of a reported subject attribute. *)
Definition reported_pair `{PyBuiltins} (nv : bytes * bytes)
  : option (string * string) :=
  name ← decode_utf_8 nv.1;
  value ← decode_utf_8 nv.2;
  Some (name, value).

(** The decoded value of a reported subject attribute named
    ["commonName"]. *)
Definition reported_common_name `{PyBuiltins} (nv : bytes * bytes)
  : option string :=
  pair ← reported_pair nv;
  if decide (pair.1 = "commonName") then Some pair.2 else None.

(** The reported alternative-name values filed under [key]. *)
Definition reported_values (key : string) (pairs : list (bytes * bytes))
  : list bytes :=
  omap (λ nv : bytes * bytes,
          if decide (key_of nv.1 = key) then Some nv.2 else None) pairs.

(** The keys the decoder files names under. *)
Definition four_keys : gset string := {["DNS"; "URI"; "XmppAddr"; "SRVName"]}.

(** Keys within the four categories, and no key with an empty list. *)
Definition well_keyed (an : gmap string (list string)) : Prop :=
  dom an ⊆ four_keys ∧ ∀ key names, an !! key = Some names → names ≠ [].

(** The fields [extension_loop] leaves alone. *)
Definition same_names (c c' : CertificateData) : Prop :=
  validated c' = validated c ∧ subject_name c' = subject_name c
  ∧ common_names c' = common_names c ∧ not_after c' = not_after c.

(** ** Identity extraction *)

Section first_seen_facts.
Context {A : Type} `{EqDecision A}.
Implicit Types l acc : list A.

Lemma elem_of_first_seen l x : x ∈ first_seen l ↔ x ∈ l.
Proof.
  induction l as [|y l IH]; simpl; [done|].
  rewrite !elem_of_cons, list_elem_of_filter, IH.
  destruct (decide (x = y)); tauto.
Qed.

Lemma NoDup_first_seen l : NoDup (first_seen l).
Proof.
  induction l as [|y l IH]; simpl; [constructor|].
  constructor.
  - rewrite list_elem_of_filter. intros [Hne _]. by apply Hne.
  - by apply NoDup_filter.
Qed.

Lemma filter_filter_not_in acc x l :
  filter (λ y, y ∉ acc ++ [x]) l = filter (λ y, y ∉ acc) (filter (λ y, y ≠ x) l).
Proof.
  induction l as [|z l IH]; [done|].
  rewrite !filter_cons.
  destruct (decide (z = x)) as [->|Hne].
  - rewrite decide_False by (intros Hn; apply Hn; set_solver).
    by rewrite decide_False by naive_solver.
  - rewrite (decide_True (P := z ≠ x)) by done.
    rewrite filter_cons.
    destruct (decide (z ∈ acc)).
    + rewrite !decide_False by set_solver. done.
    + rewrite !decide_True; [by rewrite IH|done|].
      rewrite elem_of_app, list_elem_of_singleton. tauto.
Qed.

Lemma filter_not_in_absorb acc x l :
  x ∈ acc →
  filter (λ y, y ∉ acc) (filter (λ y, y ≠ x) l) = filter (λ y, y ∉ acc) l.
Proof.
  intros Hx. induction l as [|z l IH]; [done|].
  rewrite !filter_cons.
  destruct (decide (z = x)) as [->|Hne].
  - rewrite decide_False by naive_solver.
    by rewrite decide_False by naive_solver.
  - rewrite (decide_True (P := z ≠ x)) by done.
    rewrite filter_cons. by rewrite IH.
Qed.
End first_seen_facts.

Section get_jids_facts.
Context `{JIDModule}.

(** The loop appends, to what it was given, the new JIDs in the order
    in which they are first seen. *)
Lemma get_jids_loop_spec addrs result :
  get_jids_loop addrs result
  = result ++ filter (λ j, j ∉ result) (first_seen (omap JID_new addrs)).
Proof.
  revert result. induction addrs as [|addr rest IH]; intros result; simpl.
  - by rewrite app_nil_r.
  - destruct (JID_new addr) as [jid|]; simpl; [|apply IH].
    rewrite filter_cons. case_bool_decide as Hin.
    + rewrite decide_False by naive_solver.
      rewrite IH. by rewrite filter_not_in_absorb.
    + rewrite decide_True by done.
      rewrite IH, filter_filter_not_in. by rewrite <- app_assoc.
Qed.

Lemma get_jids_loop_nil addrs :
  get_jids_loop addrs [] = first_seen (omap JID_new addrs).
Proof.
  rewrite get_jids_loop_spec. simpl.
  induction (first_seen (omap JID_new addrs)) as [|x l IH]; [done|].
  rewrite filter_cons, decide_True by set_solver. by rewrite IH.
Qed.

Lemma has_key_true (d : gmap string (list string)) k :
  has_key d k = true ↔ k ∈ dom d.
Proof. unfold has_key. by rewrite bool_decide_eq_true. Qed.

Lemma has_key_false (d : gmap string (list string)) k :
  has_key d k = false ↔ k ∉ dom d.
Proof. unfold has_key. by rewrite bool_decide_eq_false. Qed.

Lemma List_filter_stdpp {B} (f : B → bool) (P : B → Prop)
    `{∀ x, Decision (P x)} (l : list B) :
  (∀ x, f x = true ↔ P x) → List.filter f l = filter P l.
Proof.
  intros Hf. induction l as [|x l IH]; [done|]. simpl.
  rewrite filter_cons. destruct (f x) eqn:E.
  - rewrite decide_True by (by apply Hf). by rewrite IH.
  - rewrite decide_False; [done|]. rewrite <- Hf. congruence.
Qed.

Lemma get_jids_candidates c :
  get_jids c = first_seen (omap JID_new (candidates c)).
Proof.
  unfold get_jids, candidates.
  destruct (has_key (alt_names c) "XmppAddr") eqn:E1; simpl.
  { apply has_key_true in E1. rewrite bool_decide_eq_true_2 by auto.
    apply get_jids_loop_nil. }
  destruct (has_key (alt_names c) "DNS") eqn:E2.
  { apply has_key_true in E2. rewrite bool_decide_eq_true_2 by auto.
    apply get_jids_loop_nil. }
  apply has_key_false in E1, E2.
  rewrite bool_decide_eq_false_2 by tauto.
  destruct (common_names c) as [[|cn cns]|]; [done| |done].
  rewrite get_jids_loop_nil. simpl default.
  erewrite List_filter_stdpp; [done|]. intros addr. simpl.
  rewrite andb_true_iff, !negb_true_iff. done.
Qed.
End get_jids_facts.

(** C4. [get_jids] returns the JIDs of the candidate strings (the
    [XmppAddr] list followed by the [DNS] list when one of these keys is
    there; otherwise the common names with neither ["@"] nor ["/"], none
    when there are no common names), skipping the strings that do not
    parse, in first-seen order and without duplicates. It is a total
    function: nothing is raised. *)
Theorem get_jids_first_seen_candidates `{JIDModule} (c : CertificateData) :
  get_jids c = first_seen (omap JID_new (candidates c))
  ∧ NoDup (get_jids c)
  ∧ (∀ jid, jid ∈ get_jids c ↔ ∃ addr, addr ∈ candidates c ∧ JID_new addr = Some jid).
Proof.
  rewrite get_jids_candidates. split; [done|]. split.
  - apply NoDup_first_seen.
  - intros jid. rewrite elem_of_first_seen, list_elem_of_omap. naive_solver.
Qed.

(** C10. [get_jids] branches on the presence of the keys: when
    ["XmppAddr"] or ["DNS"] is a key of [alt_names] and both lists are
    empty, the result is empty whatever [common_names] holds. *)
Theorem get_jids_empty_lists_shadow_common_names `{JIDModule}
    (c : CertificateData) (cn : option (list string)) :
  "XmppAddr" ∈ dom (alt_names c) ∨ "DNS" ∈ dom (alt_names c) →
  get_list (alt_names c) "XmppAddr" = [] →
  get_list (alt_names c) "DNS" = [] →
  get_jids (set_common_names c cn) = [].
Proof.
  intros Hkey Hx Hd. unfold get_jids. simpl.
  assert (has_key (alt_names c) "XmppAddr" || has_key (alt_names c) "DNS" = true)
    as ->.
  { apply orb_true_iff. rewrite !has_key_true. done. }
  by rewrite Hx, Hd.
Qed.

Lemma get_jids_empty_lists_shadow_common_names_witness :
  get_jids Example.empty_dns_certificate = []
  ∧ Some <$> get_jids Example.common_name_certificate
    = [JID_new "example.com"].
Proof.
  split; [|reflexivity].
  apply (get_jids_empty_lists_shadow_common_names
           (H := Example.simple_jid_module)
           (Example.certificate None [("DNS", [])]) (Some ["example.com"])).
  - right. by vm_compute.
  - reflexivity.
  - reflexivity.
Defined.

(** ** Server verification *)

Section verify_server_facts.
Context `{JIDModule}.

Lemma common_name_loop_true jid names :
  common_name_loop jid names = true
  ↔ ∃ name, name ∈ names ∧ JID_new name = Some jid.
Proof.
  induction names as [|name rest IH]; simpl.
  - split; [done|]. intros (? & Hin & _). by apply elem_of_nil in Hin.
  - destruct (JID_new name) as [cn_jid|] eqn:E.
    + case_bool_decide as Heq.
      * subst. split; [|done]. intros _. exists name. split; [left|done].
      * rewrite IH. split.
        -- intros (n & Hin & Hn). exists n. split; [by right|done].
        -- intros (n & Hin & Hn). apply elem_of_cons in Hin as [->|Hin].
           ++ congruence.
           ++ by exists n.
    + rewrite IH. split.
      * intros (n & Hin & Hn). exists n. split; [by right|done].
      * intros (n & Hin & Hn). apply elem_of_cons in Hin as [->|Hin].
        -- congruence.
        -- by exists n.
Qed.

Lemma verify_jid_against_common_name_true c jid :
  verify_jid_against_common_name c jid = true
  ↔ ∃ name, name ∈ default [] (common_names c) ∧ JID_new name = Some jid.
Proof.
  unfold verify_jid_against_common_name.
  destruct (common_names c) as [[|n ns]|]; simpl default.
  - split; [done|]. intros (? & Hin & _). by apply elem_of_nil in Hin.
  - apply common_name_loop_true.
  - split; [done|]. intros (? & Hin & _). by apply elem_of_nil in Hin.
Qed.

Lemma no_alt_keys_true c :
  no_alt_keys c = true
  ↔ ("XmppAddr" ∉ dom (alt_names c)) ∧ ("DNS" ∉ dom (alt_names c))
    ∧ ("SRV" ∉ dom (alt_names c)).
Proof.
  unfold no_alt_keys.
  rewrite !andb_true_iff, !negb_true_iff, !has_key_false. tauto.
Qed.

(** A scan that ends without a match leaves [jid] bound to a JID other
    than the requested one, or as it found it. *)
Lemma server_scan_unmatched server_jid names jid0 jid :
  server_scan server_jid names jid0 = (false, jid) →
  jid = jid0 ∨ ∃ j, jid = Some j ∧ j ≠ server_jid.
Proof.
  revert jid0. induction names as [|name rest IH]; intros jid0; simpl.
  - intros [= <-]. by left.
  - destruct (JID_new name) as [j|]; [|apply IH].
    case_bool_decide as Heq; [done|].
    intros Hs. apply IH in Hs as [->|Hs]; [|by right].
    right. by exists j.
Qed.

(** What [verify_server] answers once the scan has found no match: the
    SRV names are compared with the JID the scan left in [jid]. *)
Lemma verify_server_after_scan c name srv_type server_jid jid :
  JID_new name = Some server_jid →
  no_alt_keys c = false →
  server_scan server_jid
    (get_list (alt_names c) "DNS" ++ get_list (alt_names c) "XmppAddr") None
    = (false, jid) →
  truthy srv_type = true →
  verify_server c name srv_type
  = match jid with
    | Some j => Return (verify_jid_against_srv_name c j srv_type)
    | None => Raise UnboundLocalError
    end.
Proof.
  intros Hname Hkeys Hscan Hsrv. unfold verify_server.
  rewrite Hname. simpl. fold (no_alt_keys c). rewrite Hkeys, Hscan, Hsrv.
  by destruct jid.
Qed.
End verify_server_facts.

(** C1 (the code departs from it). On a certificate with the [DNS] name
    ["other.com"] and the [SRV] name ["_xmpp-client.example.com"], the
    scan for ["example.com"] finds no match, the [SRV] entry is the
    prefix ["_xmpp-client."] followed by a string that parses to the
    requested JID, and yet [verify_server] answers [False]: the SRV
    names are compared with the JID left by the scan. *)
Theorem verify_server_srv_entry_missed :
  ∃ server_jid,
    JID_new "example.com" = Some server_jid
    ∧ (server_scan server_jid
         (get_list (alt_names Example.srv_certificate) "DNS"
          ++ get_list (alt_names Example.srv_certificate) "XmppAddr") None).1
      = false
    ∧ "_xmpp-client.example.com"
      ∈ get_list (alt_names Example.srv_certificate) "SRV"
    ∧ startswith "_xmpp-client.example.com" ("_" +:+ "xmpp-client" +:+ ".") = true
    ∧ JID_new (slice_from (String.length ("_" +:+ "xmpp-client" +:+ "."))
                          "_xmpp-client.example.com")
      = Some server_jid
    ∧ verify_server Example.srv_certificate "example.com" "xmpp-client"
      = Return false.
Proof.
  eexists. split; [reflexivity|].
  split; [by vm_compute|]. split; [|by vm_compute].
  vm_compute. left.
Qed.

(** C2. With a well-formed server name, an ["SRV"] key in [alt_names],
    nothing under ["DNS"] and ["XmppAddr"] and a non-empty [srv_type],
    [verify_server] does not return: the local [jid] handed to
    [verify_jid_against_srv_name] was never bound, which is an
    [UnboundLocalError] (a [NameError]). *)
Theorem verify_server_unbound_jid `{JIDModule} (c : CertificateData)
    (server_name srv_type : string) (server_jid : JID) :
  JID_new server_name = Some server_jid →
  "SRV" ∈ dom (alt_names c) →
  get_list (alt_names c) "DNS" ++ get_list (alt_names c) "XmppAddr" = [] →
  truthy srv_type = true →
  verify_server c server_name srv_type = Raise UnboundLocalError.
Proof.
  intros Hname Hsrv Hnil Htype.
  rewrite (verify_server_after_scan c server_name srv_type server_jid None);
    try done.
  - apply not_true_is_false. rewrite no_alt_keys_true. tauto.
  - by rewrite Hnil.
Qed.

Lemma verify_server_unbound_jid_witness :
  verify_server Example.srv_only_certificate "example.com" "xmpp-client"
  = Raise UnboundLocalError.
Proof.
  apply (verify_server_unbound_jid (H := Example.simple_jid_module)
           Example.srv_only_certificate
           "example.com" "xmpp-client"
           {| Example.sj_local := None; Example.sj_domain := "example.com";
              Example.sj_resource := None |}).
  - reflexivity.
  - by vm_compute.
  - reflexivity.
  - reflexivity.
Defined.

(** C5. [verify_server] takes the common-name path exactly when none of
    ["XmppAddr"], ["DNS"], ["SRV"] is a key of [alt_names]. On that path
    it returns, and returns [True] iff some common name parses to the
    requested JID. Off that path the common names play no part. *)
Theorem verify_server_common_name_fallback `{JIDModule} (c : CertificateData)
    (server_name srv_type : string) (server_jid : JID) :
  JID_new server_name = Some server_jid →
  ((("XmppAddr" ∉ dom (alt_names c)) ∧ ("DNS" ∉ dom (alt_names c))
    ∧ ("SRV" ∉ dom (alt_names c))) →
   ∃ b, verify_server c server_name srv_type = Return b
        ∧ (b = true ↔ ∃ name, name ∈ default [] (common_names c)
                              ∧ JID_new name = Some server_jid))
  ∧ (¬ (("XmppAddr" ∉ dom (alt_names c)) ∧ ("DNS" ∉ dom (alt_names c))
        ∧ ("SRV" ∉ dom (alt_names c))) →
     ∀ cn, verify_server (set_common_names c cn) server_name srv_type
           = verify_server c server_name srv_type).
Proof.
  intros Hname. split.
  - intros Hkeys. apply no_alt_keys_true in Hkeys.
    exists (verify_jid_against_common_name c server_jid). split.
    + unfold verify_server. rewrite Hname. simpl.
      fold (no_alt_keys c). by rewrite Hkeys.
    + apply verify_jid_against_common_name_true.
  - intros Hkeys cn. rewrite <- no_alt_keys_true in Hkeys.
    apply not_true_is_false in Hkeys.
    unfold verify_server. rewrite Hname. simpl.
    fold (no_alt_keys c). by rewrite Hkeys.
Qed.

Lemma verify_server_common_name_fallback_witness :
  verify_server Example.common_name_certificate "example.com" "xmpp-client"
  = Return true
  ∧ verify_server (set_common_names Example.srv_certificate (Some ["other.com"]))
      "other.com" "xmpp-client"
    = verify_server Example.srv_certificate "other.com" "xmpp-client".
Proof.
  pose proof (verify_server_common_name_fallback
                (H := Example.simple_jid_module)
                Example.common_name_certificate "example.com" "xmpp-client"
                {| Example.sj_local := None; Example.sj_domain := "example.com";
                   Example.sj_resource := None |} eq_refl) as [Hfall _].
  pose proof (verify_server_common_name_fallback
                (H := Example.simple_jid_module)
                Example.srv_certificate "other.com" "xmpp-client"
                {| Example.sj_local := None; Example.sj_domain := "other.com";
                   Example.sj_resource := None |} eq_refl) as [_ Hkeep].
  split.
  - destruct Hfall as (b & -> & Hb).
    + by vm_compute.
    + f_equal. apply Hb. exists "example.com". split; [|reflexivity].
      simpl. right. left.
  - apply Hkeep. intros (_ & Hdns & _). apply Hdns. by vm_compute.
Defined.

(** ** Client verification *)

Section verify_client_facts.
Context `{JIDModule}.

Lemma domain_loop_existsb jid domains :
  domain_loop jid domains
  = existsb (are_domains_equal (JID_domain jid)) domains.
Proof.
  induction domains as [|d ds IH]; simpl; [done|].
  rewrite IH. by destruct (are_domains_equal (JID_domain jid) d).
Qed.

Lemma client_loop_find jids domains :
  client_loop jids domains
  = match find (λ jid, existsb (are_domains_equal (JID_domain jid)) domains)
            jids with
    | Some jid => PyJID jid
    | None => PyNone
    end.
Proof.
  induction jids as [|jid rest IH]; simpl; [done|].
  rewrite domain_loop_existsb.
  by destruct (existsb (are_domains_equal (JID_domain jid)) domains).
Qed.

Lemma elem_of_List_filter {B} (f : B → bool) (l : list B) x :
  x ∈ List.filter f l ↔ x ∈ l ∧ f x = true.
Proof. rewrite !list_elem_of_In. apply filter_In. Qed.

Lemma List_filter_nil {B} (f : B → bool) (l : list B) :
  List.filter f l = [] ↔ ∀ x, x ∈ l → f x = false.
Proof.
  induction l as [|y l IH]; simpl.
  - split; [|done]. intros _ x Hx. by apply elem_of_nil in Hx.
  - destruct (f y) eqn:E.
    + split; [done|]. intros Hall.
      specialize (Hall y (list_elem_of_here _ _)). congruence.
    + rewrite IH. split.
      * intros Hall x Hx. apply elem_of_cons in Hx as [->|Hx]; auto.
      * intros Hall x Hx. apply Hall. by right.
Qed.
End verify_client_facts.

(** C7. A requested [client_jid] that is among the candidates with a
    local part is what [verify_client] returns, whatever [domains] is
    and wherever it stands in the list. *)
Theorem verify_client_requested_jid `{JIDModule} (c : CertificateData)
    (client_jid : JID) (domains : option (list string)) :
  client_jid ∈ get_jids c →
  has_local client_jid = true →
  verify_client c (Some client_jid) domains = PyJID client_jid.
Proof.
  intros Hin Hlocal.
  assert (client_jid ∈ List.filter has_local (get_jids c)) as Hjids.
  { by apply elem_of_List_filter. }
  unfold verify_client.
  destruct (List.filter has_local (get_jids c)) as [|first rest] eqn:E.
  - by apply elem_of_nil in Hjids.
  - by rewrite bool_decide_eq_true_2.
Qed.

(** Scenario D: the candidates are [b@x] then [a@x], no domain list is
    given, and asking for [a@x] gives [a@x], not the first candidate. *)
Lemma verify_client_requested_jid_witness :
  ∃ a b,
    JID_new "a@x" = Some a ∧ JID_new "b@x" = Some b
    ∧ get_jids Example.two_clients_certificate = [b; a]
    ∧ verify_client Example.two_clients_certificate (Some a) None = PyJID a
    ∧ verify_client Example.two_clients_certificate None None = PyJID b
    ∧ a ≠ b.
Proof.
  eexists. eexists. split; [reflexivity|]. split; [reflexivity|].
  split; [reflexivity|]. split; [|split; [reflexivity|done]].
  apply (verify_client_requested_jid (H := Example.simple_jid_module)
           Example.two_clients_certificate).
  - right. left.
  - reflexivity.
Defined.

(** C8. [verify_client] looks only at the candidates of [get_jids] that
    have a local part. With none of them the answer is [False] whatever
    is asked. With some of them, a list of domains and no requested JID
    among them, the answer is the first one, in extraction order, whose
    domain [are_domains_equal] to an entry of the list, and [None] when
    there is no such candidate. *)
Theorem verify_client_by_domain `{JIDModule} (c : CertificateData) :
  ((∀ jid, jid ∈ get_jids c → has_local jid = false) →
   ∀ client_jid domains, verify_client c client_jid domains = PyFalse)
  ∧ (∀ client_jid domains,
       List.filter has_local (get_jids c) ≠ [] →
       (∀ cj, client_jid = Some cj → cj ∉ List.filter has_local (get_jids c)) →
       verify_client c client_jid (Some domains)
       = match find (λ jid, existsb (are_domains_equal (JID_domain jid)) domains)
                    (List.filter has_local (get_jids c)) with
         | Some jid => PyJID jid
         | None => PyNone
         end)
  ∧ (∀ client_jid domains jid,
       verify_client c client_jid domains = PyJID jid →
       jid ∈ get_jids c ∧ has_local jid = true).
Proof.
  split; [|split].
  - intros Hnone client_jid domains. unfold verify_client.
    by rewrite (proj2 (List_filter_nil has_local (get_jids c)) Hnone).
  - intros client_jid domains Hne Hreq. unfold verify_client.
    destruct (List.filter has_local (get_jids c)) as [|first rest] eqn:E;
      [done|].
    rewrite <- client_loop_find.
    destruct client_jid as [cj|]; [|done].
    by rewrite bool_decide_eq_false_2 by (by apply Hreq).
  - intros client_jid domains jid. unfold verify_client.
    rewrite <- elem_of_List_filter.
    destruct (List.filter has_local (get_jids c)) as [|first rest] eqn:E;
      [done|].
    assert (∀ ds, client_loop (first :: rest) ds = PyJID jid →
                  jid ∈ first :: rest) as Hloop.
    { intros ds. rewrite client_loop_find.
      destruct (find _ _) as [j|] eqn:Ef; [|done].
      intros [= ->]. apply find_some in Ef as [Hin _].
      by apply list_elem_of_In. }
    assert (match domains with
            | Some ds => client_loop (first :: rest) ds
            | None => PyJID first
            end = PyJID jid → jid ∈ first :: rest) as Hun.
    { destruct domains as [ds|]; [apply Hloop|]. intros [= ->]. left. }
    destruct client_jid as [cj|]; [|done].
    case_bool_decide as Hcj; [|done]. by intros [= ->].
Qed.

(** On [b@x.org], [a@example.com], [example.com]: with the domain list
    [EXAMPLE.com] the answer is [a@example.com], the bare domain is not
    a candidate, and a certificate with only a bare domain gives
    [False]. *)
Lemma verify_client_by_domain_witness :
  verify_client Example.mixed_certificate None (Some ["EXAMPLE.com"])
  = match JID_new "a@example.com" with Some a => PyJID a | None => PyNone end
  ∧ verify_client Example.mixed_certificate None (Some ["nowhere.example"])
    = PyNone
  ∧ verify_client Example.empty_dns_certificate None (Some ["example.com"])
    = PyFalse.
Proof.
  destruct (verify_client_by_domain (H := Example.simple_jid_module)
              Example.mixed_certificate) as (_ & Hdom & _).
  destruct (verify_client_by_domain (H := Example.simple_jid_module)
              Example.empty_dns_certificate) as (Hnone & _ & _).
  split; [|split].
  - rewrite Hdom; [reflexivity|by vm_compute|done].
  - rewrite Hdom; [reflexivity|by vm_compute|done].
  - apply Hnone. intros jid Hjid. vm_compute in Hjid.
    by apply elem_of_nil in Hjid.
Defined.

(** ** No certificate *)

(** C6 (amended). When the peer presented no certificate,
    [from_ssl_socket] returns the data of [CertificateData.__init__]:
    not validated, no subject, no common names, no expiry, no alternative
    names. On it [get_jids] is empty and [verify_client] is [False] for
    every request, and neither raises; [verify_server] returns [False]
    for every server name that is a well-formed JID, and raises
    [JIDError] for one that is not, as it does on every certificate. *)
Theorem no_certificate_not_verified `{JIDModule} `{DerDecoder} `{PyBuiltins}
    (sock : ssl_socket) :
  has_getpeercert sock = false ∨ getpeercert_binary sock = None →
  ∃ c, from_ssl_socket sock = Return c
       ∧ validated c = false
       ∧ subject_name c = None ∧ common_names c = None
       ∧ not_after c = None ∧ alt_names c = ∅
       ∧ get_jids c = []
       ∧ (∀ server_name srv_type,
            verify_server c server_name srv_type
            = match JID_new server_name with
              | Some _ => Return false
              | None => Raise JIDError
              end)
       ∧ (∀ client_jid domains, verify_client c client_jid domains = PyFalse).
Proof.
  intros Hnone. exists CertificateData_init. split.
  - unfold from_ssl_socket. by destruct Hnone as [-> | ->]; [|destruct (has_getpeercert sock)].
  - repeat split; try done.
    intros server_name srv_type. unfold verify_server.
    by destruct (JID_new server_name).
Qed.

Lemma no_certificate_not_verified_witness :
  from_ssl_socket Example.no_certificate_socket = Return CertificateData_init
  ∧ verify_server CertificateData_init "example.com" "xmpp-client" = Return false
  ∧ verify_client CertificateData_init None None = PyFalse.
Proof.
  destruct (no_certificate_not_verified
              (H := Example.simple_jid_module) (H0 := Example.short_der)
              (H1 := Example.ascii_builtins) Example.no_certificate_socket)
    as (c & Hc & _ & _ & _ & _ & _ & _ & Hserver & Hclient).
  - by right.
  - injection Hc as <-. split; [done|]. split.
    + apply (Hserver "example.com" "xmpp-client").
    + apply Hclient.
Defined.

(** C6 as stated fails: with no certificate, [verify_server] on a server
    name that is not a JID raises instead of returning [False]. *)
Lemma no_certificate_malformed_name_raises :
  from_ssl_socket Example.no_certificate_socket = Return CertificateData_init
  ∧ JID_new "user@" = None
  ∧ verify_server CertificateData_init "user@" "xmpp-client" = Raise JIDError
  ∧ verify_server CertificateData_init "user@" "xmpp-client" ≠ Return false.
Proof. by vm_compute. Qed.


(** ** The subject of a decoded certificate *)

Section decode_subject_facts.
Context `{DerDecoder} `{PyBuiltins}.

(** The table is looked up, never unfolded, in the proofs below. *)
Opaque DN_OIDS.

Lemma _decode_asn1_string_text data :
  _decode_asn1_string data = lift UnicodeError (asn1_text data).
Proof. unfold _decode_asn1_string, asn1_text. by destruct (str_type data). Qed.

Lemma nameval_loop_spec (rdns : list AttributeTypeAndValue)
    common_names rdnss_list :
  Forall value_is_der rdns →
  nameval_loop rdns common_names rdnss_list
  = Return (common_names ++ omap common_name_of rdns,
            rdnss_list ++ omap attribute_pair rdns).
Proof.
  intros Hder. revert common_names rdnss_list.
  induction Hder as [|nameval rest Hv _ IH]; intros common_names rdnss_list.
  - simpl. by rewrite !app_nil_r.
  - simpl. unfold common_name_of, attribute_pair, value_is_der in *.
    destruct (DN_OIDS !! atv_type nameval) as [name|]; simpl; [|apply IH].
    destruct Hv as [ds Hds]; [by eexists|]. rewrite Hds. simpl.
    rewrite _decode_asn1_string_text.
    destruct (asn1_text ds) as [text|]; simpl; [|apply IH].
    rewrite IH. destruct (String.eqb_spec name "CommonName") as [->|Hne].
    + rewrite decide_True by done. by rewrite <- !app_assoc.
    + rewrite decide_False by done. by rewrite <- !app_assoc.
Qed.

Lemma rdns_loop_spec (rdnss : list (list AttributeTypeAndValue))
    common_names subject_name :
  Forall (Forall value_is_der) rdnss →
  rdns_loop rdnss common_names subject_name
  = Return (common_names ++ omap common_name_of (concat rdnss),
            subject_name ++ (omap (M := list) attribute_pair <$> rdnss)).
Proof.
  intros Hder. revert common_names subject_name.
  induction Hder as [|rdns rest Hv _ IH]; intros common_names subject_name.
  - simpl. by rewrite !app_nil_r.
  - simpl. rewrite nameval_loop_spec by done. simpl. rewrite IH.
    by rewrite omap_app, <- !app_assoc.
Qed.

Lemma rdnss_loop_spec (subject : list (list (list AttributeTypeAndValue)))
    common_names subject_name :
  Forall (Forall (Forall value_is_der)) subject →
  rdnss_loop subject common_names subject_name
  = Return (common_names ++ omap common_name_of (concat (concat subject)),
            subject_name ++ (omap (M := list) attribute_pair <$> concat subject)).
Proof.
  intros Hder. revert common_names subject_name.
  induction Hder as [|rdnss rest Hv _ IH]; intros common_names subject_name.
  - simpl. by rewrite !app_nil_r.
  - simpl. rewrite rdns_loop_spec by done. simpl. rewrite IH.
    by rewrite concat_app, omap_app, fmap_app, <- !app_assoc.
Qed.
Transparent DN_OIDS.
End decode_subject_facts.

(** ** The alternative names of a decoded certificate *)

Section decode_alt_names_facts.
Context `{DerDecoder} `{PyBuiltins}.

(** An element that is interpreted carries a decodable value. *)
Lemma alt_name_loop_skip gn rest an :
  general_name_category gn = None →
  alt_name_loop (gn :: rest) an = alt_name_loop rest an.
Proof.
  destruct gn; simpl; try done.
  destruct (decide (type_id = XMPPADDR_OID)); [done|].
  by destruct (decide (type_id = SRVNAME_OID)).
Qed.

Lemma alt_name_loop_store gn rest an key text :
  general_name_category gn = Some key →
  general_name_text gn = Some text →
  alt_name_loop (gn :: rest) an
  = alt_name_loop rest (alt_names_append an key text).
Proof.
  destruct gn; simpl; try done.
  - destruct (decide (type_id = XMPPADDR_OID)).
    { intros [= <-]. destruct (der_decode_UTF8String value) as [v|]; [|done].
      simpl. rewrite _decode_asn1_string_text. unfold asn1_text. simpl.
      by intros ->. }
    destruct (decide (type_id = SRVNAME_OID)); [|done].
    intros [= <-]. destruct (der_decode_IA5String value) as [v|]; [|done].
    simpl. rewrite _decode_asn1_string_text. unfold asn1_text. simpl.
    by intros ->.
  - intros [= <-]. rewrite _decode_asn1_string_text. unfold asn1_text. simpl.
    by intros ->.
  - intros [= <-]. rewrite _decode_asn1_string_text. unfold asn1_text. simpl.
    by intros ->.
Qed.




End decode_alt_names_facts.




(** ** Runs on the example certificates *)

(** A certificate with the single address [user@example.com]: that JID
    is the identity extracted and the client identity granted for the
    domain [example.com]. For the server name [example.com] the scan
    meets only [user@example.com], which is another JID. *)
Example client_certificate_run :
  Some <$> get_jids Example.client_certificate = [JID_new "user@example.com"]
  ∧ Some (verify_client Example.client_certificate None (Some ["example.com"]))
    = PyJID <$> JID_new "user@example.com"
  ∧ verify_server Example.client_certificate "example.com" "xmpp-client"
    = Return false.
Proof. repeat split; vm_compute; reflexivity. Qed.

(** A certificate with the common name [example.com] and no alternative
    names stands for that host and for no other. *)
Example host_certificate_run :
  verify_server Example.host_certificate "example.com" "xmpp-client"
  = Return true
  ∧ verify_server Example.host_certificate "other.com" "xmpp-client"
    = Return false.
Proof. by vm_compute. Qed.

(** ** More on server verification *)

Section verify_server_more.
Context `{JIDModule}.

Lemma srv_name_loop_true jid srv_prefix srvs :
  srv_name_loop jid srv_prefix srvs = true
  ↔ ∃ srv, srv ∈ srvs ∧ startswith srv srv_prefix = true
           ∧ JID_new (slice_from (String.length srv_prefix) srv) = Some jid.
Proof.
  induction srvs as [|srv rest IH]; simpl.
  - split; [done|]. intros (? & Hin & _). by apply elem_of_nil in Hin.
  - assert (srv_name_loop jid srv_prefix rest = true
            ↔ (∃ s, s ∈ rest ∧ startswith s srv_prefix = true
                    ∧ JID_new (slice_from (String.length srv_prefix) s)
                      = Some jid)) as IH' by exact IH.
    clear IH.
    assert (∀ P : string → Prop, ¬ P srv →
              ((∃ s, s ∈ rest ∧ P s) ↔ (∃ s, s ∈ srv :: rest ∧ P s))) as Hskip.
    { intros P Hn. split.
      - intros (s & Hs & HP). exists s. split; [by right|done].
      - intros (s & Hs & HP). apply elem_of_cons in Hs as [->|Hs]; [done|].
        by exists s. }
    destruct (startswith srv srv_prefix) eqn:Epre; simpl.
    + destruct (JID_new (slice_from (String.length srv_prefix) srv))
        as [srv_jid|] eqn:Ejid.
      * case_bool_decide as Heq.
        -- subst. split; [|done]. intros _. exists srv.
           split; [left|done].
        -- rewrite IH'. apply (Hskip (λ s, _ ∧ _)).
           intros [_ Hs]. congruence.
      * rewrite IH'. apply (Hskip (λ s, _ ∧ _)). intros [_ Hs]. congruence.
    + rewrite IH'. apply (Hskip (λ s, _ ∧ _)). intros [Hs _]. congruence.
Qed.

Lemma server_scan_matched server_jid names jid0 :
  (server_scan server_jid names jid0).1 = true ↔ names_jid server_jid names.
Proof.
  unfold names_jid. revert jid0.
  induction names as [|name rest IH]; intros jid0; simpl.
  - split; [done|]. intros (? & Hin & _). by apply elem_of_nil in Hin.
  - destruct (JID_new name) as [j|] eqn:Ej.
    + case_bool_decide as Heq.
      * subst. split; [|done]. intros _. exists name. split; [left|done].
      * rewrite IH. split.
        -- intros (n & Hn & Hj). exists n. split; [by right|done].
        -- intros (n & Hn & Hj). apply elem_of_cons in Hn as [->|Hn].
           ++ congruence.
           ++ by exists n.
    + rewrite IH. split.
      * intros (n & Hn & Hj). exists n. split; [by right|done].
      * intros (n & Hn & Hj). apply elem_of_cons in Hn as [->|Hn].
        -- congruence.
        -- by exists n.
Qed.

(** After a scan without a match, [jid] is bound to the last name that
    parsed, and is left as it was when none did. *)
Lemma server_scan_last server_jid names jid0 jid :
  server_scan server_jid names jid0 = (false, jid) →
  jid = match last (omap JID_new names) with
        | Some j => Some j
        | None => jid0
        end.
Proof.
  revert jid0. induction names as [|name rest IH]; intros jid0; simpl.
  - by intros [= <-].
  - destruct (JID_new name) as [j|] eqn:Ej; [|apply IH].
    case_bool_decide as Heq; [done|]. intros Hs. apply IH in Hs as ->.
    simpl. rewrite last_cons. unfold omap.
    by destruct (last (list_omap _ _ JID_new rest)).
Qed.

Lemma last_omap_None (names : list string) :
  last (omap JID_new names) = None ↔ ∀ name, name ∈ names → JID_new name = None.
Proof.
  rewrite last_None. split.
  - intros Hnil name Hin. destruct (JID_new name) as [j|] eqn:Ej; [|done].
    assert (j ∈ omap JID_new names) as Hj.
    { apply list_elem_of_omap. by exists name. }
    rewrite Hnil in Hj. by apply elem_of_nil in Hj.
  - intros Hall. induction names as [|name rest IH]; [done|]. simpl.
    rewrite (Hall name) by left. apply IH. intros n Hn. apply Hall. by right.
Qed.

Lemma scanned_names_no_alt_keys c :
  no_alt_keys c = true → scanned_names c = [].
Proof.
  rewrite no_alt_keys_true. intros (Hx & Hd & _). unfold scanned_names, get_list.
  apply not_elem_of_dom in Hx, Hd. by rewrite Hx, Hd.
Qed.

Lemma verify_server_unfold c name srv_type server_jid :
  JID_new name = Some server_jid →
  verify_server c name srv_type
  = if no_alt_keys c
    then Return (verify_jid_against_common_name c server_jid)
    else
      match server_scan server_jid (scanned_names c) None with
      | (true, _) => Return true
      | (false, jid) =>
          if truthy srv_type then
            match jid with
            | Some j => Return (verify_jid_against_srv_name c j srv_type)
            | None => Raise UnboundLocalError
            end
          else Return false
      end.
Proof.
  intros Hname. unfold verify_server. rewrite Hname. simpl.
  fold (no_alt_keys c). fold (scanned_names c).
  destruct (no_alt_keys c); [done|].
  destruct (server_scan server_jid (scanned_names c) None) as [[|] [j|]];
    by destruct (truthy srv_type).
Qed.

Lemma verify_server_named c name srv_type server_jid :
  JID_new name = Some server_jid →
  names_jid server_jid (scanned_names c) →
  verify_server c name srv_type = Return true.
Proof.
  intros Hname Hnamed. rewrite (verify_server_unfold _ _ _ server_jid) by done.
  destruct (no_alt_keys c) eqn:Ekeys.
  - apply scanned_names_no_alt_keys in Ekeys. rewrite Ekeys in Hnamed.
    destruct Hnamed as (? & Hin & _). by apply elem_of_nil in Hin.
  - apply (server_scan_matched _ _ None) in Hnamed.
    by destruct (server_scan server_jid (scanned_names c) None) as [[|] ?].
Qed.
End verify_server_more.

(** X1. [verify_jid_against_srv_name] answers [True] exactly when an
    ["SRV"] alternative name is the prefix ["_<srv_type>."] followed by
    a text that parses to the JID it was given; entries with another
    prefix or with a rest that is no JID are passed over. *)
Theorem verify_jid_against_srv_name_true `{JIDModule} (c : CertificateData)
    (jid : JID) (srv_type : string) :
  verify_jid_against_srv_name c jid srv_type = true
  ↔ srv_names_jid jid srv_type (get_list (alt_names c) "SRV").
Proof. unfold verify_jid_against_srv_name. apply srv_name_loop_true. Qed.

(** X2. A certificate with a DNS or XmppAddr name that parses to the
    requested server JID is accepted, whatever the service type and
    whatever else the certificate holds. *)
Theorem verify_server_accepts_named `{JIDModule} (c : CertificateData)
    (server_name srv_type : string) (server_jid : JID) :
  JID_new server_name = Some server_jid →
  names_jid server_jid (scanned_names c) →
  verify_server c server_name srv_type = Return true.
Proof. intros Hname Hnamed. by apply (verify_server_named c _ _ server_jid). Qed.

Lemma verify_server_accepts_named_witness :
  verify_server Example.mixed_certificate "example.com" "" = Return true.
Proof.
  apply (verify_server_accepts_named (H := Example.simple_jid_module)
           Example.mixed_certificate "example.com" ""
           {| Example.sj_local := None; Example.sj_domain := "example.com";
              Example.sj_resource := None |}).
  - reflexivity.
  - exists "example.com". split; [|reflexivity]. left.
Defined.

(** X3. With an empty service type [verify_server] returns for every
    well-formed server name, and its answer is [True] exactly when a
    DNS or XmppAddr name parses to the server JID or, on a certificate
    with none of the keys XmppAddr, DNS and SRV, a common name does. *)
Theorem verify_server_without_srv_type `{JIDModule} (c : CertificateData)
    (server_name : string) (server_jid : JID) :
  JID_new server_name = Some server_jid →
  ∃ b, verify_server c server_name "" = Return b
       ∧ (b = true
          ↔ names_jid server_jid (scanned_names c)
            ∨ (no_alt_keys c = true
               ∧ names_jid server_jid (default [] (common_names c)))).
Proof.
  intros Hname. rewrite (verify_server_unfold _ _ _ server_jid) by done.
  destruct (no_alt_keys c) eqn:Ekeys.
  - eexists. split; [done|]. rewrite verify_jid_against_common_name_true.
    fold (names_jid server_jid (default [] (common_names c))).
    rewrite (scanned_names_no_alt_keys c Ekeys). split; [by right; split|].
    intros [(? & Hin & _)|[_ ?]]; [by apply elem_of_nil in Hin|done].
  - pose proof (server_scan_matched server_jid (scanned_names c) None) as Hm.
    destruct (server_scan server_jid (scanned_names c) None) as [[|] j];
      simpl in *; eexists; (split; [done|]).
    + split; [intros _; left; by apply Hm|done].
    + split; [done|]. intros [Hn|[? _]]; [|done]. by apply Hm in Hn.
Qed.

Lemma verify_server_without_srv_type_witness :
  verify_server Example.srv_only_certificate "example.com" "" = Return false.
Proof.
  destruct (verify_server_without_srv_type (H := Example.simple_jid_module)
              Example.srv_only_certificate "example.com"
              {| Example.sj_local := None; Example.sj_domain := "example.com";
                 Example.sj_resource := None |} eq_refl) as (b & -> & Hb).
  f_equal. destruct b; [|done]. exfalso.
  destruct (proj1 Hb eq_refl) as [(n & Hin & _)|[Hkeys _]].
  - by apply elem_of_nil in Hin.
  - by vm_compute in Hkeys.
Defined.

(** X4. For a well-formed server name, [verify_server] raises
    [UnboundLocalError] exactly when one of the keys XmppAddr, DNS, SRV
    is there, the service type is not empty and no DNS or XmppAddr
    name parses as a JID (in particular when there is none). *)
Theorem verify_server_unbound_iff `{JIDModule} (c : CertificateData)
    (server_name srv_type : string) (server_jid : JID) :
  JID_new server_name = Some server_jid →
  verify_server c server_name srv_type = Raise UnboundLocalError
  ↔ no_alt_keys c = false ∧ truthy srv_type = true
    ∧ ∀ name, name ∈ scanned_names c → JID_new name = None.
Proof.
  intros Hname. rewrite (verify_server_unfold _ _ _ server_jid) by done.
  rewrite <- last_omap_None.
  destruct (no_alt_keys c) eqn:Ekeys; [by split; [|intros [? _]]|].
  destruct (server_scan server_jid (scanned_names c) None) as [[|] jid] eqn:Es.
  - split; [done|]. intros (_ & _ & Hlast).
    pose proof (proj1 (server_scan_matched server_jid (scanned_names c) None))
      as Hm.
    rewrite Es in Hm. destruct (Hm eq_refl) as (n & Hn & Hj).
    rewrite last_omap_None in Hlast. rewrite (Hlast n Hn) in Hj. done.
  - apply server_scan_last in Es.
    destruct (truthy srv_type); [|by split; [|intros (_ & ? & _)]].
    destruct (last (omap JID_new (scanned_names c))) as [j|]; subst jid.
    + split; [done|]. by intros (_ & _ & ?).
    + by split.
Qed.

Lemma verify_server_unbound_iff_witness :
  verify_server Sample.unparsable_dns_certificate "example.com" "xmpp-client"
  = Raise UnboundLocalError.
Proof.
  apply (verify_server_unbound_iff (H := Example.simple_jid_module)
           Sample.unparsable_dns_certificate "example.com" "xmpp-client"
           {| Example.sj_local := None; Example.sj_domain := "example.com";
              Example.sj_resource := None |} eq_refl).
  split; [reflexivity|]. split; [reflexivity|].
  intros name Hin. vm_compute in Hin.
  apply elem_of_cons in Hin as [->|Hin]; [reflexivity|].
  apply elem_of_cons in Hin as [->|Hin]; [reflexivity|].
  by apply elem_of_nil in Hin.
Defined.

(** X5. When no DNS or XmppAddr name parses to the requested server
    JID but some name parses, and the service type is not empty,
    [verify_server] returns, and answers [True] exactly when an SRV
    name stands for the last JID of the scan, a JID other than the
    requested one. A certificate that names only another host is then
    accepted. *)
Theorem verify_server_srv_check_uses_last_scanned `{JIDModule}
    (c : CertificateData) (server_name srv_type : string)
    (server_jid last_jid : JID) :
  JID_new server_name = Some server_jid →
  ¬ names_jid server_jid (scanned_names c) →
  last (omap JID_new (scanned_names c)) = Some last_jid →
  truthy srv_type = true →
  last_jid ≠ server_jid
  ∧ ∃ b, verify_server c server_name srv_type = Return b
         ∧ (b = true
            ↔ srv_names_jid last_jid srv_type (get_list (alt_names c) "SRV")).
Proof.
  intros Hname Hnone Hlast Hsrv. split.
  - intros ->. apply Hnone.
    assert (server_jid ∈ omap JID_new (scanned_names c)) as Hin.
    { apply last_Some_elem_of. done. }
    apply list_elem_of_omap in Hin as (n & Hn & Hj). by exists n.
  - rewrite (verify_server_unfold _ _ _ server_jid) by done.
    destruct (no_alt_keys c) eqn:Ekeys.
    { rewrite (scanned_names_no_alt_keys c Ekeys) in Hlast. done. }
    pose proof (server_scan_matched server_jid (scanned_names c) None) as Hm.
    destruct (server_scan server_jid (scanned_names c) None) as [[|] jid] eqn:Es.
    + exfalso. apply Hnone. by apply Hm.
    + apply server_scan_last in Es. rewrite Hlast in Es. subst jid.
      rewrite Hsrv. eexists. split; [done|].
      unfold verify_jid_against_srv_name. apply srv_name_loop_true.
Qed.

Lemma verify_server_srv_check_uses_last_scanned_witness :
  verify_server Sample.foreign_srv_certificate "example.com" "xmpp-client"
  = Return true
  ∧ ∀ name, name ∈ scanned_names Sample.foreign_srv_certificate
            ∨ name ∈ get_list (alt_names Sample.foreign_srv_certificate) "SRV" →
            JID_new name ≠ JID_new "example.com".
Proof.
  split.
  - destruct (verify_server_srv_check_uses_last_scanned
                (H := Example.simple_jid_module)
                Sample.foreign_srv_certificate "example.com" "xmpp-client"
                {| Example.sj_local := None; Example.sj_domain := "example.com";
                   Example.sj_resource := None |}
                {| Example.sj_local := None; Example.sj_domain := "other.com";
                   Example.sj_resource := None |})
      as (_ & b & -> & Hb).
    + reflexivity.
    + intros (n & Hin & Hn). vm_compute in Hin.
      apply elem_of_cons in Hin as [->|Hin]; [done|].
      by apply elem_of_nil in Hin.
    + reflexivity.
    + reflexivity.
    + f_equal. apply Hb. exists "_xmpp-client.other.com".
      split; [vm_compute; left|]. by split.
  - intros name [Hin|Hin]; vm_compute in Hin;
      (apply elem_of_cons in Hin as [->|Hin]; [done|]);
      by apply elem_of_nil in Hin.
Defined.

(** X6. On a certificate without the key SRV, every JID of [get_jids]
    is accepted as a server identity: the names [verify_server] checks
    include the names [get_jids] draws on. *)
Theorem verify_server_accepts_get_jids `{JIDModule} (c : CertificateData)
    (server_name srv_type : string) (server_jid : JID) :
  JID_new server_name = Some server_jid →
  server_jid ∈ get_jids c →
  "SRV" ∉ dom (alt_names c) →
  verify_server c server_name srv_type = Return true.
Proof.
  intros Hname Hin Hsrv.
  rewrite get_jids_candidates, elem_of_first_seen, list_elem_of_omap in Hin.
  destruct Hin as (addr & Haddr & Hjid). unfold candidates in Haddr.
  case_bool_decide as Hkeys.
  - apply (verify_server_named c _ _ server_jid); [done|].
    exists addr. split; [|done]. unfold scanned_names.
    rewrite elem_of_app in Haddr. rewrite elem_of_app. tauto.
  - rewrite (verify_server_unfold _ _ _ server_jid) by done.
    assert (no_alt_keys c = true) as ->.
    { apply no_alt_keys_true. tauto. }
    f_equal. apply verify_jid_against_common_name_true.
    exists addr. split; [|done].
    by apply list_elem_of_filter in Haddr as [_ ?].
Qed.

Lemma verify_server_accepts_get_jids_witness :
  verify_server Example.common_name_certificate "example.com" "xmpp-client"
  = Return true.
Proof.
  apply (verify_server_accepts_get_jids (H := Example.simple_jid_module)
           Example.common_name_certificate "example.com" "xmpp-client"
           {| Example.sj_local := None; Example.sj_domain := "example.com";
              Example.sj_resource := None |}).
  - reflexivity.
  - vm_compute. left.
  - by vm_compute.
Defined.

(** ** More on client verification *)

Section verify_client_more.
Context `{JIDModule}.

Lemma find_List_filter {B} (f : B → bool) (l : list B) :
  find f l = head (List.filter f l).
Proof.
  induction l as [|x l IH]; [done|]. simpl. by destruct (f x).
Qed.

Lemma client_loop_PyNone jids domains :
  client_loop jids domains = PyNone
  ↔ ∀ jid domain, jid ∈ jids → domain ∈ domains →
                  are_domains_equal (JID_domain jid) domain = false.
Proof.
  induction jids as [|jid rest IH]; simpl.
  - split; [|done]. intros _ j d Hj. by apply elem_of_nil in Hj.
  - rewrite domain_loop_existsb.
    destruct (existsb (are_domains_equal (JID_domain jid)) domains) eqn:Ex.
    + split; [done|]. intros Hall.
      apply existsb_exists in Ex as (d & Hd & Heq).
      rewrite (Hall jid d) in Heq; [done|left|by apply list_elem_of_In].
    + rewrite IH. split.
      * intros Hall j d Hj Hd. apply elem_of_cons in Hj as [->|Hj]; [|eauto].
        destruct (are_domains_equal (JID_domain jid) d) eqn:Ed; [|done].
        assert (existsb (are_domains_equal (JID_domain jid)) domains = true)
          as Hex; [|congruence].
        apply existsb_exists. exists d. split; [by apply list_elem_of_In|done].
      * intros Hall j d Hj Hd. apply Hall; [by right|done].
Qed.
End verify_client_more.

(** X7. Without a list of domains, and with no requested JID among the
    candidates, [verify_client] gives the first JID of [get_jids] that
    has a local part, and [False] when there is none. *)
Theorem verify_client_first_candidate `{JIDModule} (c : CertificateData)
    (client_jid : option JID) :
  (∀ cj, client_jid = Some cj → cj ∉ get_jids c ∨ has_local cj = false) →
  verify_client c client_jid None
  = match find has_local (get_jids c) with
    | Some jid => PyJID jid
    | None => PyFalse
    end.
Proof.
  intros Hreq. unfold verify_client. rewrite find_List_filter.
  destruct (List.filter has_local (get_jids c)) as [|first rest] eqn:E;
    [done|].
  simpl. destruct client_jid as [cj|]; [|done].
  rewrite bool_decide_eq_false_2; [done|].
  rewrite <- E, elem_of_List_filter. intros [Hin Hloc].
  destruct (Hreq cj eq_refl) as [Hn|Hn]; [done|congruence].
Qed.

Lemma verify_client_first_candidate_witness :
  Some (verify_client Example.mixed_certificate (JID_new "example.com") None)
  = PyJID <$> JID_new "b@x.org".
Proof.
  rewrite (verify_client_first_candidate (H := Example.simple_jid_module)
             Example.mixed_certificate).
  - reflexivity.
  - intros cj [= <-]. by right.
Defined.

(** X8. The two refusals of [verify_client] tell different things.
    [False] is returned exactly when no JID of [get_jids] has a local
    part. [None] is returned only when a list of domains was given and
    no JID with a local part has a domain equal to one of them. *)
Theorem verify_client_refusals `{JIDModule} (c : CertificateData)
    (client_jid : option JID) (domains : option (list string)) :
  (verify_client c client_jid domains = PyFalse
   ↔ ∀ jid, jid ∈ get_jids c → has_local jid = false)
  ∧ (verify_client c client_jid domains = PyNone →
     ∃ ds, domains = Some ds
           ∧ (∃ jid, jid ∈ get_jids c ∧ has_local jid = true)
           ∧ ∀ jid domain, jid ∈ get_jids c → has_local jid = true →
                           domain ∈ ds →
                           are_domains_equal (JID_domain jid) domain = false).
Proof.
  unfold verify_client.
  pose proof (List_filter_nil has_local (get_jids c)) as Hnil.
  pose proof (elem_of_List_filter has_local (get_jids c)) as Hmem.
  destruct (List.filter has_local (get_jids c)) as [|first rest] eqn:E.
  - split; [|done]. split; [intros _; by apply Hnil|done].
  - assert (match domains with
            | Some ds => client_loop (first :: rest) ds
            | None => PyJID first
            end ≠ PyFalse) as Hun.
    { destruct domains as [ds|]; [|done]. rewrite client_loop_find.
      by destruct (find _ _). }
    split.
    + split.
      * intros Hf. exfalso. destruct client_jid as [cj|]; [|done].
        by case_bool_decide.
      * intros Hall. apply Hnil in Hall. done.
    + intros Hn.
      assert (match domains with
              | Some ds => client_loop (first :: rest) ds
              | None => PyJID first
              end = PyNone) as Hloop.
      { destruct client_jid as [cj|]; [|done]. by case_bool_decide. }
      destruct domains as [ds|]; [|done]. exists ds. split; [done|]. split.
      * exists first. apply Hmem. left.
      * intros jid domain Hin Hloc Hd.
        apply (proj1 (client_loop_PyNone _ _) Hloop); [|done].
        apply Hmem. done.
Qed.

Lemma verify_client_refusals_witness :
  verify_client Example.mixed_certificate None (Some ["nowhere.example"])
  = PyNone
  ∧ ∃ jid, jid ∈ get_jids Example.mixed_certificate ∧ has_local jid = true.
Proof.
  split; [reflexivity|].
  destruct (verify_client_refusals (H := Example.simple_jid_module)
              Example.mixed_certificate None (Some ["nowhere.example"]))
    as [_ Hnone].
  destruct (Hnone eq_refl) as (ds & _ & Hex & _). exact Hex.
Defined.

(** ** More on the ASN.1 decoder *)

Section asn1_more.
Context `{DerDecoder} `{PyBuiltins}.

Opaque DN_OIDS.

Lemma alt_name_loop_fail gn rest an key :
  general_name_category gn = Some key →
  general_name_text gn = None →
  alt_name_loop (gn :: rest) an = Raise UnicodeError
  ∨ alt_name_loop (gn :: rest) an = Raise PyAsn1Error.
Proof.
  destruct gn; simpl; try done.
  - destruct (decide (type_id = XMPPADDR_OID)).
    { intros _. destruct (der_decode_UTF8String value) as [v|]; [|by right].
      simpl. rewrite _decode_asn1_string_text. unfold asn1_text. simpl.
      intros ->. by left. }
    destruct (decide (type_id = SRVNAME_OID)); [|done].
    intros _. destruct (der_decode_IA5String value) as [v|]; [|by right].
    simpl. rewrite _decode_asn1_string_text. unfold asn1_text. simpl.
    intros ->. by left.
  - intros _. rewrite _decode_asn1_string_text. unfold asn1_text. simpl.
    intros ->. by left.
  - intros _. rewrite _decode_asn1_string_text. unfold asn1_text. simpl.
    intros ->. by left.
Qed.

Lemma alt_name_loop_cases names an :
  (Forall (λ gn, is_Some (general_name_category gn)
                 → is_Some (general_name_text gn)) names
   ∧ ∃ an', alt_name_loop names an = Return an')
  ∨ (¬ Forall (λ gn, is_Some (general_name_category gn)
                     → is_Some (general_name_text gn)) names
     ∧ (alt_name_loop names an = Raise UnicodeError
        ∨ alt_name_loop names an = Raise PyAsn1Error)).
Proof.
  revert an. induction names as [|gn rest IH]; intros an.
  - left. split; [constructor|]. by exists an.
  - destruct (general_name_category gn) as [key|] eqn:Ecat.
    + destruct (general_name_text gn) as [text|] eqn:Etext.
      * rewrite (alt_name_loop_store gn rest an key text) by done.
        destruct (IH (alt_names_append an key text)) as [[Hok Hret]|[Hno Hr]].
        -- left. split; [|done]. constructor; [|done]. rewrite Etext. eauto.
        -- right. split; [|done]. intros Hall. apply Hno.
           by apply Forall_cons in Hall as [_ ?].
      * right. split.
        -- intros Hall. apply Forall_cons in Hall as [Hgn _].
           rewrite Ecat, Etext in Hgn. destruct Hgn as [? ?]; [eauto|done].
        -- by apply (alt_name_loop_fail gn rest an key).
    + rewrite alt_name_loop_skip by done.
      destruct (IH an) as [[Hok Hret]|[Hno Hr]].
      * left. split; [|done]. constructor; [|done]. rewrite Ecat.
        intros [? ?]. done.
      * right. split; [|done]. intros Hall. apply Hno.
        by apply Forall_cons in Hall as [_ ?].
Qed.

Lemma nameval_loop_cases (rdns : list AttributeTypeAndValue) cn acc :
  (Forall value_is_der rdns ∧ ∃ st, nameval_loop rdns cn acc = Return st)
  ∨ (¬ Forall value_is_der rdns ∧ nameval_loop rdns cn acc = Raise PyAsn1Error).
Proof.
  destruct (decide (Forall value_is_der rdns)) as [Hok|Hno].
  { left. split; [done|]. rewrite nameval_loop_spec by done. eauto. }
  right. split; [done|]. revert cn acc.
  induction rdns as [|nameval rest IH]; intros cn acc.
  - exfalso. apply Hno. constructor.
  - cbn [nameval_loop].
    destruct (decide (value_is_der nameval)) as [Hv|Hv].
    + assert (¬ Forall value_is_der rest) as Hrest.
      { intros Hr. apply Hno. by constructor. }
      unfold value_is_der in Hv.
      destruct (DN_OIDS !! atv_type nameval) as [name|]; [|by apply IH].
      destruct Hv as [ds Hds]; [by eexists|]. rewrite Hds. simpl.
      rewrite _decode_asn1_string_text.
      destruct (asn1_text ds) as [text|]; simpl; by apply IH.
    + unfold value_is_der in Hv.
      destruct (DN_OIDS !! atv_type nameval) as [name|].
      * destruct (der_decode_DirectoryString (atv_value nameval)) as [ds|];
          [|done].
        exfalso. apply Hv. eauto.
      * exfalso. apply Hv. intros [? ?]. done.
Qed.

Lemma rdns_loop_cases (rdnss : list (list AttributeTypeAndValue)) cn sn :
  (Forall (Forall value_is_der) rdnss
   ∧ ∃ st, rdns_loop rdnss cn sn = Return st)
  ∨ (¬ Forall (Forall value_is_der) rdnss
     ∧ rdns_loop rdnss cn sn = Raise PyAsn1Error).
Proof.
  revert cn sn. induction rdnss as [|rdns rest IH]; intros cn sn.
  - left. split; [constructor|]. simpl. eauto.
  - cbn [rdns_loop].
    destruct (nameval_loop_cases rdns cn []) as [[Hok (st & ->)]|[Hno ->]].
    + simpl. destruct (IH st.1 (sn ++ [st.2])) as [[Hr Hret]|[Hr Hret]].
      * left. split; [by constructor|done].
      * right. split; [|done]. intros Hall. apply Hr.
        by apply Forall_cons in Hall as [_ ?].
    + right. split; [|done]. intros Hall. apply Hno.
      by apply Forall_cons in Hall as [? _].
Qed.

Lemma rdnss_loop_cases (subject : list (list (list AttributeTypeAndValue)))
    cn sn :
  (Forall (Forall (Forall value_is_der)) subject
   ∧ ∃ st, rdnss_loop subject cn sn = Return st)
  ∨ (¬ Forall (Forall (Forall value_is_der)) subject
     ∧ rdnss_loop subject cn sn = Raise PyAsn1Error).
Proof.
  revert cn sn. induction subject as [|rdnss rest IH]; intros cn sn.
  - left. split; [constructor|]. simpl. eauto.
  - cbn [rdnss_loop].
    destruct (rdns_loop_cases rdnss cn sn) as [[Hok (st & ->)]|[Hno ->]].
    + simpl. destruct (IH st.1 st.2) as [[Hr Hret]|[Hr Hret]].
      * left. split; [by constructor|done].
      * right. split; [|done]. intros Hall. apply Hr.
        by apply Forall_cons in Hall as [_ ?].
    + right. split; [|done]. intros Hall. apply Hno.
      by apply Forall_cons in Hall as [? _].
Qed.

Transparent DN_OIDS.
End asn1_more.

(** X9. [_decode_alt_names] returns exactly when every interpreted
    element carries text. One [dNSName], URI, XmppAddr or SRVName whose
    value is not DER of its string type or not UTF-8 makes the whole
    call raise, with [PyAsn1Error] or [UnicodeError]: unlike
    [_decode_subject], nothing is caught here. *)
Theorem decode_alt_names_returns_iff `{DerDecoder} `{PyBuiltins}
    (self : CertificateData) (names : list GeneralName) :
  ((∃ self', _decode_alt_names self names = Return self')
   ↔ Forall (λ gn, is_Some (general_name_category gn)
                   → is_Some (general_name_text gn)) names)
  ∧ (∀ e, _decode_alt_names self names = Raise e →
          e = UnicodeError ∨ e = PyAsn1Error).
Proof.
  unfold _decode_alt_names.
  destruct (alt_name_loop_cases names (alt_names self))
    as [[Hok (an' & ->)]|[Hno [-> | ->]]]; simpl.
  - split; [|done]. split; [done|]. eauto.
  - split; [|intros e [= <-]; by left]. split; [by intros [? ?]|done].
  - split; [|intros e [= <-]; by right]. split; [by intros [? ?]|done].
Qed.

(** X10. [_decode_subject] returns exactly when every attribute whose
    OID is in [DN_OIDS] has a value that is DER of a [DirectoryString];
    otherwise it raises [PyAsn1Error]. Values of attributes with other
    OIDs are never decoded, and text that does not decode is never an
    error. *)
Theorem decode_subject_returns_iff `{DerDecoder} `{PyBuiltins}
    (self : CertificateData) (subject : list (list (list AttributeTypeAndValue))) :
  (Forall (Forall (Forall value_is_der)) subject
   ∧ ∃ self', _decode_subject self subject = Return self')
  ∨ (¬ Forall (Forall (Forall value_is_der)) subject
     ∧ _decode_subject self subject = Raise PyAsn1Error).
Proof.
  unfold _decode_subject.
  destruct (rdnss_loop_cases subject [] []) as [[Hok (st & ->)]|[Hno ->]].
  - left. split; [done|]. simpl. eauto.
  - by right.
Qed.

(** ** What [from_der_data] and [from_ssl_socket] hand back *)

Section from_der_data_facts.
Context `{DerDecoder} `{PyBuiltins}.

Lemma well_keyed_append an key value :
  key ∈ four_keys → well_keyed an → well_keyed (alt_names_append an key value).
Proof.
  intros Hkey [Hdom Hne]. unfold alt_names_append. split.
  - rewrite dom_insert. apply union_least; [|done].
    by apply singleton_subseteq_l.
  - intros k names. rewrite lookup_insert. case_decide.
    + intros [= <-]. by destruct (get_list an key).
    + apply Hne.
Qed.

Lemma alt_name_loop_well_keyed names an an' :
  alt_name_loop names an = Return an' → well_keyed an → well_keyed an'.
Proof.
  revert an. induction names as [|gn rest IH]; intros an; simpl.
  - by intros [= <-].
  - destruct gn; try apply IH.
    + destruct (decide (type_id = XMPPADDR_OID)).
      { destruct (der_decode_UTF8String value); simpl; [|done].
        destruct (_decode_asn1_string _); simpl; [|done].
        intros Hl Hw. apply (IH _ Hl). apply well_keyed_append; [|done].
        by vm_compute. }
      destruct (decide (type_id = SRVNAME_OID)); [|apply IH].
      destruct (der_decode_IA5String value); simpl; [|done].
      destruct (_decode_asn1_string _); simpl; [|done].
      intros Hl Hw. apply (IH _ Hl). apply well_keyed_append; [|done].
      by vm_compute.
    + destruct (_decode_asn1_string _); simpl; [|done].
      intros Hl Hw. apply (IH _ Hl). apply well_keyed_append; [|done].
      by vm_compute.
    + destruct (_decode_asn1_string _); simpl; [|done].
      intros Hl Hw. apply (IH _ Hl). apply well_keyed_append; [|done].
      by vm_compute.
Qed.

Lemma extension_loop_keeps exts c c' :
  extension_loop exts c = Return c' →
  same_names c c' ∧ (well_keyed (alt_names c) → well_keyed (alt_names c')).
Proof.
  revert c. induction exts as [|ext rest IH]; intros c; simpl.
  - intros [= <-]. by unfold same_names.
  - destruct (decide (extnID ext ≠ SUBJECT_ALT_NAME_OID)); [apply IH|].
    destruct (if extn_is_Any ext then _ else _) as [value|]; simpl; [|done].
    destruct (der_decode_GeneralNames value) as [names|]; simpl; [|done].
    unfold _decode_alt_names.
    destruct (alt_name_loop names (alt_names c)) as [an|] eqn:El; simpl;
      [|done].
    intros Hl. apply IH in Hl as [(? & ? & ? & ?) Hw]. split; [done|].
    intros Hc. apply Hw. simpl. by apply (alt_name_loop_well_keyed names _ _ El).
Qed.

Lemma extension_loop_no_alt_name exts c :
  (∀ ext, ext ∈ exts → extnID ext ≠ SUBJECT_ALT_NAME_OID) →
  extension_loop exts c = Return c.
Proof.
  induction exts as [|ext rest IH]; intros Hno; simpl; [done|].
  rewrite decide_True by (apply Hno; left).
  apply IH. intros e He. apply Hno. by right.
Qed.

(** The state in which [from_der_data] enters the loop over the
    extensions. *)
Lemma from_der_data_unfold data :
  from_der_data data
  = let* cert := lift PyAsn1Error (der_decode_Certificate data) in
    let* st := rdnss_loop (subject (tbsCertificate cert)) [] [] in
    let* t := lift ValueError
                (strptime (notAfter (validity (tbsCertificate cert)))
                          "%y%m%d%H%M%SZ") in
    extension_loop (default [] (extensions (tbsCertificate cert)))
      {| validated := false; subject_name := Some st.2;
         not_after := Some t; common_names := Some st.1; alt_names := ∅ |}.
Proof.
  unfold from_der_data. destruct (der_decode_Certificate data) as [cert|];
    [|done].
  simpl. unfold _decode_subject.
  destruct (rdnss_loop _ _ _) as [st|]; [|done]. simpl.
  unfold _decode_validity. simpl.
  destruct (strptime _ _) as [t|]; [|done]. simpl.
  by destruct (extensions (tbsCertificate cert)) as [[|ext exts]|].
Qed.

Lemma well_keyed_empty : well_keyed ∅.
Proof.
  split; [by rewrite dom_empty|]. intros k names. by rewrite lookup_empty.
Qed.

Lemma from_der_data_shape data c :
  from_der_data data = Return c →
  validated c = false
  ∧ is_Some (subject_name c) ∧ is_Some (common_names c)
  ∧ is_Some (not_after c) ∧ well_keyed (alt_names c).
Proof.
  rewrite from_der_data_unfold.
  destruct (der_decode_Certificate data) as [cert|]; [|done]. simpl.
  destruct (rdnss_loop _ _ _) as [st|]; [|done]. simpl.
  destruct (strptime _ _) as [t|]; [|done]. simpl.
  intros Hl. apply extension_loop_keeps in Hl as [(Hv & Hs & Hc & Hn) Hw].
  simpl in *. rewrite Hv, Hs, Hc, Hn. repeat split; eauto.
  - apply Hw, well_keyed_empty.
  - apply Hw, well_keyed_empty.
Qed.
End from_der_data_facts.

(** C9 (amended). For every Subject DN, [_decode_subject] returns
    exactly when each attribute whose OID is in [DN_OIDS] has a value
    that is DER of a [DirectoryString]. It then turns each RDN, in
    place, into the list of the (name, text) pairs of its attributes
    whose OID is in the table and whose value is text, in their order:
    an attribute with another OID, or with octets that are not text, is
    left out, and neither ends its RDN or the decode. The common names
    are the texts of the pairs named ["CommonName"]; the other fields
    are untouched. When an attribute of a known OID has a value that is
    no [DirectoryString], [_decode_subject] raises [PyAsn1Error], and so
    does [from_der_data] on every certificate with that subject. *)
Theorem decode_subject_outcome `{DerDecoder} `{PyBuiltins}
    (self : CertificateData) (dn : list (list (list AttributeTypeAndValue))) :
  (Forall (Forall (Forall value_is_der)) dn →
   ∃ self',
     _decode_subject self dn = Return self'
     ∧ subject_name self' = Some (omap (M := list) attribute_pair <$> concat dn)
     ∧ common_names self' = Some (omap common_name_of (concat (concat dn)))
     ∧ validated self' = validated self
     ∧ not_after self' = not_after self
     ∧ alt_names self' = alt_names self)
  ∧ (¬ Forall (Forall (Forall value_is_der)) dn →
     _decode_subject self dn = Raise PyAsn1Error
     ∧ ∀ data cert,
         der_decode_Certificate data = Some cert →
         subject (tbsCertificate cert) = dn →
         from_der_data data = Raise PyAsn1Error).
Proof.
  split.
  - intros Hder. unfold _decode_subject.
    rewrite rdnss_loop_spec by done. simpl. eexists. split; [reflexivity|].
    by simpl.
  - intros Hno.
    assert (rdnss_loop dn [] [] = Raise PyAsn1Error) as Hloop.
    { by destruct (rdnss_loop_cases dn [] []) as [[Hok _]|[_ Hr]]. }
    split.
    + unfold _decode_subject. by rewrite Hloop.
    + intros data cert Hcert Hdn.
      rewrite from_der_data_unfold, Hcert. simpl. by rewrite Hdn, Hloop.
Qed.

Lemma decode_subject_outcome_witness :
  (∃ self',
     _decode_subject CertificateData_init Example.example_subject = Return self'
     ∧ subject_name self'
       = Some [ [("CountryName", "PL")];
                [("OrganizationName", "Example"); ("CommonName", "ab")] ]
     ∧ common_names self' = Some ["ab"])
  ∧ _decode_subject CertificateData_init Sample.integer_subject
    = Raise PyAsn1Error
  ∧ from_der_data (H := Sample.integer_decoder) Sample.integer_der
    = Raise PyAsn1Error.
Proof.
  split.
  - destruct (decode_subject_outcome
                (H := Example.short_der) (H0 := Example.ascii_builtins)
                CertificateData_init Example.example_subject)
      as [Hret _].
    destruct Hret as (self' & Hret & Hsn & Hcn & _).
    + unfold Example.example_subject.
      repeat match goal with
             | |- Forall _ [] => constructor
             | |- Forall _ (_ :: _) => constructor
             end;
        unfold value_is_der; intros Hs;
        first [ by (vm_compute; eexists)
              | exfalso; destruct Hs as [? Hs]; by vm_compute in Hs ].
    + exists self'. split; [done|]. split.
      * rewrite Hsn. reflexivity.
      * rewrite Hcn. reflexivity.
  - destruct (decode_subject_outcome
                (H := Sample.integer_decoder) (H0 := Example.ascii_builtins)
                CertificateData_init Sample.integer_subject)
      as [_ Hraise].
    destruct Hraise as [Hsubject Hcert].
    + intros Hall. unfold Sample.integer_subject in Hall.
      apply Forall_cons in Hall as [Hall _].
      apply Forall_cons in Hall as [Hall _].
      apply Forall_cons in Hall as [_ Hall].
      apply Forall_cons in Hall as [_ Hall].
      apply Forall_cons in Hall as [Hcn _].
      destruct Hcn as [ds Hds]; [by (vm_compute; eexists)|].
      by vm_compute in Hds.
    + split; [exact Hsubject|].
      by apply (Hcert Sample.integer_der Sample.integer_certificate).
Defined.

(** C9 as stated fails: a subject with the country [PL], an attribute
    of an OID that is not in the table and a common name whose value is
    an INTEGER is not decoded with the unknown attribute left out; the
    value of the known OID aborts the subject and the certificate. *)
Lemma decode_subject_integer_value_raises :
  DN_OIDS !! [2; 5; 4; 3]%N = Some "CommonName"
  ∧ DN_OIDS !! [1; 2; 840; 113549; 1; 9; 1]%N = None
  ∧ der_decode_DirectoryString (DerDecoder := Example.short_der)
      [x02; x01; x05] = None
  ∧ _decode_subject (H := Example.short_der) (H0 := Example.ascii_builtins)
      CertificateData_init Sample.integer_subject
    = Raise PyAsn1Error
  ∧ from_der_data (H := Sample.integer_decoder) (H0 := Example.ascii_builtins)
      Sample.integer_der
    = Raise PyAsn1Error.
Proof. repeat split; vm_compute; reflexivity. Qed.

(** X11. A certificate that [from_der_data] returns is never marked
    validated, and its subject, its common names and its expiry time
    are all present (possibly empty): only [from_ssl_socket] sets
    [validated]. *)
Theorem from_der_data_fields `{DerDecoder} `{PyBuiltins}
    (data : bytes) (c : CertificateData) :
  from_der_data data = Return c →
  validated c = false
  ∧ is_Some (subject_name c) ∧ is_Some (common_names c)
  ∧ is_Some (not_after c).
Proof.
  intros Hc. apply from_der_data_shape in Hc. tauto.
Qed.

Lemma from_der_data_fields_witness :
  ∃ c, from_der_data (H := Sample.sample_decoder) Sample.sample_der = Return c
       ∧ validated c = false ∧ is_Some (common_names c).
Proof.
  destruct (from_der_data (H := Sample.sample_decoder)
              (H0 := Example.ascii_builtins) Sample.sample_der)
    as [c|e] eqn:E; [|by vm_compute in E].
  exists c. split; [done|].
  destruct (from_der_data_fields (H := Sample.sample_decoder)
              (H0 := Example.ascii_builtins) Sample.sample_der c E)
    as (Hv & _ & Hc & _).
  by split.
Defined.

(** X12. In a certificate that [from_der_data] returns, the keys of
    [alt_names] are among ["DNS"], ["URI"], ["XmppAddr"], ["SRVName"],
    and no key has an empty list: a key is present exactly when a name
    was filed under it. The key ["SRV"] that [verify_server] and
    [display_name] read is never there. *)
Theorem from_der_data_alt_names_keys `{DerDecoder} `{PyBuiltins}
    (data : bytes) (c : CertificateData) :
  from_der_data data = Return c →
  dom (alt_names c) ⊆ four_keys
  ∧ (∀ key, key ∈ dom (alt_names c) ↔ get_list (alt_names c) key ≠ [])
  ∧ "SRV" ∉ dom (alt_names c).
Proof.
  intros Hc. apply from_der_data_shape in Hc as (_ & _ & _ & _ & Hdom & Hne).
  split; [done|]. split.
  - intros key. unfold get_list. rewrite elem_of_dom. split.
    + intros [names Hn]. rewrite Hn. simpl. by apply (Hne key).
    + destruct (alt_names c !! key); [eauto|done].
  - intros Hsrv. apply Hdom in Hsrv. by vm_compute in Hsrv.
Qed.

Lemma from_der_data_alt_names_keys_witness :
  ∃ c, from_der_data (H := Sample.sample_decoder) Sample.sample_der = Return c
       ∧ alt_names c !! "DNS" = Some ["example.com"; "other.com"]
       ∧ "SRV" ∉ dom (alt_names c).
Proof.
  destruct (from_der_data (H := Sample.sample_decoder)
              (H0 := Example.ascii_builtins) Sample.sample_der)
    as [c|e] eqn:E; [|by vm_compute in E].
  exists c. split; [done|].
  destruct (from_der_data_alt_names_keys (H := Sample.sample_decoder)
              (H0 := Example.ascii_builtins) Sample.sample_der c E)
    as (_ & _ & Hsrv).
  split; [|done]. vm_compute in E. by injection E as <-.
Defined.

(** X13. On a certificate that [from_der_data] returns, [verify_server]
    answers [True] for a well-formed server name only when a DNS or
    XmppAddr name parses to the server JID or, with neither key there,
    a common name does: the SRV names it would compare are never
    present. *)
Theorem verify_server_on_decoded `{JIDModule} `{DerDecoder} `{PyBuiltins}
    (data : bytes) (c : CertificateData) (server_name srv_type : string)
    (server_jid : JID) :
  from_der_data data = Return c →
  JID_new server_name = Some server_jid →
  verify_server c server_name srv_type = Return true
  ↔ names_jid server_jid (scanned_names c)
    ∨ (no_alt_keys c = true
       ∧ names_jid server_jid (default [] (common_names c))).
Proof.
  intros Hc Hname.
  apply from_der_data_shape in Hc as (_ & _ & _ & _ & Hdom & _).
  assert ("SRV" ∉ dom (alt_names c)) as Hsrv.
  { intros Hs. apply Hdom in Hs. by vm_compute in Hs. }
  split.
  - rewrite (verify_server_unfold _ _ _ server_jid) by done.
    destruct (no_alt_keys c) eqn:Ekeys.
    + intros [= Hcn]. right. split; [done|].
      by apply verify_jid_against_common_name_true.
    + pose proof (server_scan_matched server_jid (scanned_names c) None) as Hm.
      destruct (server_scan server_jid (scanned_names c) None) as [[|] jid].
      * intros _. left. by apply Hm.
      * destruct (truthy srv_type); [|done]. destruct jid as [j|]; [|done].
        unfold verify_jid_against_srv_name, get_list.
        apply not_elem_of_dom in Hsrv. by rewrite Hsrv.
  - intros [Hn|[Hkeys Hcn]].
    + by apply (verify_server_named c _ _ server_jid).
    + rewrite (verify_server_unfold _ _ _ server_jid) by done.
      rewrite Hkeys. f_equal.
      by apply verify_jid_against_common_name_true.
Qed.

Lemma verify_server_on_decoded_witness :
  ∃ c, from_der_data (H := Sample.sample_decoder) Sample.sample_der = Return c
       ∧ verify_server c "other.com" "xmpp-client" = Return true.
Proof.
  destruct (from_der_data (H := Sample.sample_decoder)
              (H0 := Example.ascii_builtins) Sample.sample_der)
    as [c|e] eqn:E; [|by vm_compute in E].
  exists c. split; [done|].
  apply (verify_server_on_decoded (H := Example.simple_jid_module)
           (H0 := Sample.sample_decoder) (H1 := Example.ascii_builtins)
           Sample.sample_der c "other.com" "xmpp-client"
           {| Example.sj_local := None; Example.sj_domain := "other.com";
              Example.sj_resource := None |} E eq_refl).
  left. exists "other.com". split; [|reflexivity].
  vm_compute in E. injection E as <-. vm_compute. right. left.
Defined.

(** X14. A certificate none of whose extensions is a SubjectAltName
    (or with no extensions at all) comes out of [from_der_data] with an
    empty [alt_names]. *)
Theorem from_der_data_without_alt_name `{DerDecoder} `{PyBuiltins}
    (data : bytes) (cert : Certificate) (c : CertificateData) :
  der_decode_Certificate data = Some cert →
  (∀ ext, ext ∈ default [] (extensions (tbsCertificate cert)) →
          extnID ext ≠ SUBJECT_ALT_NAME_OID) →
  from_der_data data = Return c →
  alt_names c = ∅.
Proof.
  intros Hcert Hno. rewrite from_der_data_unfold, Hcert. simpl.
  destruct (rdnss_loop _ _ _) as [st|]; [|done]. simpl.
  destruct (strptime _ _) as [t|]; [|done]. simpl.
  rewrite extension_loop_no_alt_name by done. by intros [= <-].
Qed.

Lemma from_der_data_without_alt_name_witness :
  ∃ c, from_der_data (H := Sample.sample_decoder) Sample.plain_der = Return c
       ∧ alt_names c = ∅ ∧ common_names c = Some ["ab"].
Proof.
  destruct (from_der_data (H := Sample.sample_decoder)
              (H0 := Example.ascii_builtins) Sample.plain_der)
    as [c|e] eqn:E; [|by vm_compute in E].
  exists c. split; [done|]. split.
  - apply (from_der_data_without_alt_name (H := Sample.sample_decoder)
             (H0 := Example.ascii_builtins)
             Sample.plain_der Sample.plain_certificate c); [reflexivity| |done].
    intros ext Hin. vm_compute in Hin.
    apply elem_of_cons in Hin as [->|Hin]; [done|].
    by apply elem_of_nil in Hin.
  - vm_compute in E. by injection E as <-.
Defined.

(** X15. A certificate that [from_ssl_socket] returns is marked
    validated exactly when the socket has [getpeercert], handed over a
    non-empty DER blob and reports peer information: a certificate that
    decodes but that the ssl module did not validate stays
    unvalidated. *)
Theorem from_ssl_socket_validated `{DerDecoder} `{PyBuiltins}
    (sock : ssl_socket) (c : CertificateData) :
  from_ssl_socket sock = Return c →
  validated c
  = has_getpeercert sock
    && match getpeercert_binary sock with
       | Some (_ :: _) => true
       | _ => false
       end
    && getpeercert_info sock.
Proof.
  unfold from_ssl_socket. destruct (has_getpeercert sock); simpl.
  - destruct (getpeercert_binary sock) as [[|b0 data]|]; simpl.
    + by intros [= <-].
    + destruct (from_der_data (b0 :: data)) as [r|]; simpl; [|done].
      by intros [= <-].
    + by intros [= <-].
  - by intros [= <-].
Qed.

Lemma from_ssl_socket_validated_witness :
  ∃ c, from_ssl_socket (H := Sample.sample_decoder) Sample.sample_socket
       = Return c
       ∧ validated c = true.
Proof.
  destruct (from_ssl_socket (H := Sample.sample_decoder)
              (H0 := Example.ascii_builtins) Sample.sample_socket)
    as [c|e] eqn:E; [|by vm_compute in E].
  exists c. split; [done|].
  by rewrite (from_ssl_socket_validated (H := Sample.sample_decoder)
                (H0 := Example.ascii_builtins) Sample.sample_socket c E).
Defined.

(** ** The display name *)

Section display_name_facts.

Lemma string_app_assoc (s1 s2 s3 : string) :
  (s1 +:+ s2) +:+ s3 = s1 +:+ s2 +:+ s3.
Proof.
  induction s1 as [|a s1 IH]; [done|].
  change (String a ((s1 +:+ s2) +:+ s3) = String a (s1 +:+ s2 +:+ s3)).
  by rewrite IH.
Qed.

Lemma join_cons sep part rest :
  rest ≠ [] → join sep (part :: rest) = part +:+ sep +:+ join sep rest.
Proof. by destruct rest. Qed.

Lemma join_app sep (l1 l2 : list string) :
  l1 ≠ [] → l2 ≠ [] →
  join sep (l1 ++ l2) = join sep l1 +:+ sep +:+ join sep l2.
Proof.
  intros H1 H2. induction l1 as [|x l1 IH]; [done|].
  destruct l1 as [|y l1].
  - simpl. by destruct l2.
  - change ((x :: y :: l1) ++ l2) with (x :: (y :: l1) ++ l2).
    rewrite !join_cons by done. rewrite IH by done.
    by rewrite !string_app_assoc.
Qed.

Lemma display_name_loop_head (an : gmap string (list string)) name_types :
  display_name_loop an name_types
  = default "<unknown>" (head (name_types ≫= get_list an)).
Proof.
  induction name_types as [|t rest IH]; [done|].
  cbn [display_name_loop mbind list_bind]. unfold get_list at 1.
  destruct (an !! t) as [[|name names]|]; simpl; try apply IH. done.
Qed.
End display_name_facts.

(** X16. For a subject with at least one RDN and no RDN left empty,
    [display_name] is the list of all its [name=value] pairs in order,
    separated by [", "]: that the pairs are grouped in RDNs does not
    show, and the alternative names are not looked at. *)
Theorem display_name_of_subject (c : CertificateData)
    (rdns : list (list (string * string))) :
  subject_name c = Some rdns →
  rdns ≠ [] →
  Forall (λ rdn, rdn ≠ []) rdns →
  display_name c = join ", " (format_pair <$> concat rdns).
Proof.
  intros Hs Hne Hall. unfold display_name. rewrite Hs.
  destruct rdns as [|rdn rest]; [done|]. clear Hs Hne.
  revert rdn Hall. induction rest as [|rdn' rest IH]; intros rdn Hall.
  - simpl. by rewrite app_nil_r.
  - apply Forall_cons in Hall as [Hrdn Hrest].
    rewrite fmap_cons, join_cons by done. rewrite (IH rdn' Hrest).
    change (concat (rdn :: rdn' :: rest)) with (rdn ++ concat (rdn' :: rest)).
    rewrite fmap_app, join_app; [done| |].
    + by destruct rdn.
    + apply Forall_cons in Hrest as [Hrdn' _]. by destruct rdn'.
Qed.

Lemma display_name_of_subject_witness :
  display_name Sample.named_certificate
  = "countryName=PL, organizationName=Example, commonName=example.com".
Proof.
  rewrite (display_name_of_subject Sample.named_certificate
             [ [("countryName", "PL")];
               [("organizationName", "Example");
                ("commonName", "example.com")] ]).
  - reflexivity.
  - reflexivity.
  - done.
  - by repeat constructor.
Defined.

(** X17. Without a subject (absent or with no RDN), [display_name] is
    the first of the XmppAddr names, else the first of the DNS names,
    else the first of the SRV names, else ["<unknown>"]; a key with an
    empty list counts as a missing key. *)
Theorem display_name_without_subject (c : CertificateData) :
  subject_name c = None ∨ subject_name c = Some [] →
  display_name c
  = default "<unknown>"
      (head (get_list (alt_names c) "XmppAddr"
             ++ get_list (alt_names c) "DNS"
             ++ get_list (alt_names c) "SRV")).
Proof.
  intros Hs. unfold display_name.
  destruct Hs as [Hs|Hs]; rewrite Hs;
    rewrite display_name_loop_head; simpl; by rewrite app_nil_r.
Qed.

Lemma display_name_without_subject_witness :
  display_name Sample.unnamed_certificate = "example.com"
  ∧ display_name CertificateData_init = "<unknown>".
Proof.
  split.
  - rewrite (display_name_without_subject Sample.unnamed_certificate);
      [reflexivity|by left].
  - rewrite (display_name_without_subject CertificateData_init);
      [reflexivity|by left].
Defined.

(** ** The certificate data of the ssl module *)

Section basic_facts.
Context `{PyBuiltins} `{SslModule}.

Lemma decode_part_loop_spec part new_part :
  BasicCertificateData.decode_part_loop part new_part
  = new_part ++ omap reported_pair part.
Proof.
  revert new_part. induction part as [|[name value] rest IH]; intros new_part.
  - simpl. by rewrite app_nil_r.
  - cbn [BasicCertificateData.decode_part_loop omap list_omap].
    unfold reported_pair at 1. simpl.
    destruct (decode_utf_8 name) as [n|]; simpl; [|apply IH].
    destruct (decode_utf_8 value) as [v|]; simpl; [|apply IH].
    rewrite IH. by rewrite <- app_assoc.
Qed.

Lemma decode_subject_loop_spec parts subject_name :
  BasicCertificateData.decode_subject_loop parts subject_name
  = subject_name ++ (omap (M := list) reported_pair <$> parts).
Proof.
  revert subject_name. induction parts as [|part rest IH]; intros subject_name.
  - simpl. by rewrite app_nil_r.
  - simpl. rewrite IH, decode_part_loop_spec. by rewrite <- app_assoc.
Qed.

Lemma decode_old_loop_spec old new :
  BasicCertificateData.decode_old_loop old new = new ++ omap decode_utf_8 old.
Proof.
  revert new. induction old as [|name rest IH]; intros new.
  - simpl. by rewrite app_nil_r.
  - simpl. destruct (decode_utf_8 name) as [n|]; simpl; [|apply IH].
    rewrite IH. by rewrite <- app_assoc.
Qed.

Lemma alt_name_pairs_loop_spec pairs (an : gmap string (list bytes)) key :
  BasicCertificateData.alt_name_pairs_loop pairs an !! key
  = match reported_values key pairs with
    | [] => an !! key
    | values => Some (default [] (an !! key) ++ values)
    end.
Proof.
  revert an. induction pairs as [|[name value] rest IH]; intros an; [done|].
  cbn [BasicCertificateData.alt_name_pairs_loop]. rewrite IH.
  unfold reported_values. cbn [omap list_omap]. simpl.
  fold (reported_values key rest).
  rewrite lookup_insert. destruct (decide (key_of name = key)) as [->|Hne].
  - simpl. destruct (reported_values key rest); [done|].
    by rewrite <- app_assoc.
  - done.
Qed.

Lemma common_name_part_loop_spec part common_names :
  BasicCertificateData.common_name_part_loop part common_names
  = common_names
    ++ omap (λ pair : string * string,
               if decide (pair.1 = "commonName") then Some pair.2 else None)
            part.
Proof.
  revert common_names.
  induction part as [|[name value] rest IH]; intros common_names.
  - simpl. by rewrite app_nil_r.
  - simpl. rewrite IH. destruct (String.eqb_spec name "commonName").
    + rewrite decide_True by done. by rewrite <- app_assoc.
    + by rewrite decide_False by done.
Qed.

Lemma common_name_parts_loop_spec parts common_names :
  BasicCertificateData.common_name_parts_loop parts common_names
  = common_names
    ++ omap (λ pair : string * string,
               if decide (pair.1 = "commonName") then Some pair.2 else None)
            (concat parts).
Proof.
  revert common_names. induction parts as [|part rest IH]; intros common_names.
  - simpl. by rewrite app_nil_r.
  - simpl. rewrite IH, common_name_part_loop_spec, omap_app.
    by rewrite <- app_assoc.
Qed.

Lemma omap_omap {A B C} (f : A → option B) (g : B → option C) (l : list A) :
  omap g (omap f l) = omap (λ x, f x ≫= g) l.
Proof.
  induction l as [|x l IH]; [done|]. cbn [omap list_omap].
  destruct (f x) as [y|]; cbn [mbind option_bind omap list_omap]; [|exact IH].
  destruct (g y); [by f_equal|exact IH].
Qed.

Lemma concat_fmap_omap {A B} (f : A → option B) (ls : list (list A)) :
  concat (omap (M := list) f <$> ls) = omap f (concat ls).
Proof.
  induction ls as [|l ls IH]; [done|].
  rewrite fmap_cons. cbn [concat]. by rewrite omap_app, IH.
Qed.

Lemma omap_reported_common_name (parts : list (list (bytes * bytes))) :
  omap (λ pair : string * string,
          if decide (pair.1 = "commonName") then Some pair.2 else None)
       (concat (omap (M := list) reported_pair <$> parts))
  = omap reported_common_name (concat parts).
Proof. by rewrite concat_fmap_omap, omap_omap. Qed.

(** What [from_ssl_socket] does with a report that is there. *)
Lemma basic_from_ssl_socket_report data :
  peercert_truthy data = true →
  BasicCertificateData.from_ssl_socket
    {| basic_has_getpeercert := true; basic_getpeercert := Some data |}
  = let* not_after :=
      match pc_notAfter data with
      | Some text =>
          let* tstamp := lift ValueError (cert_time_to_seconds text) in
          let* t := lift ValueError (utcfromtimestamp tstamp) in
          Return (Some t)
      | None => Return None
      end in
    Return
      {| validated := true;
         subject_name :=
           (λ parts : list (list (bytes * bytes)),
              (λ part : list (bytes * bytes), omap reported_pair part) <$> parts)
           <$> pc_subject data;
         not_after := not_after;
         common_names :=
           Some (omap reported_common_name (concat (default [] (pc_subject data))));
         alt_names :=
           (λ old : list bytes, omap decode_utf_8 old)
           <$> BasicCertificateData.alt_name_pairs_loop
                 (default [] (pc_subjectAltName data)) ∅ |}.
Proof.
  intros Htruthy. unfold BasicCertificateData.from_ssl_socket. simpl.
  rewrite Htruthy. simpl.
  assert (match pc_subjectAltName data with
          | Some pairs => BasicCertificateData.alt_name_pairs_loop pairs ∅
          | None => ∅
          end
          = BasicCertificateData.alt_name_pairs_loop
              (default [] (pc_subjectAltName data)) ∅) as ->.
  { by destruct (pc_subjectAltName data). }
  destruct (match pc_notAfter data with Some _ => _ | None => _ end)
    as [not_after|e]; simpl; [|done].
  f_equal. unfold BasicCertificateData._decode_names. simpl. f_equal.
  - destruct (pc_subject data) as [parts|]; [|done]. simpl.
    by rewrite decode_subject_loop_spec.
  - f_equal. destruct (pc_subject data) as [parts|]; [|done]. simpl.
    rewrite decode_subject_loop_spec. simpl.
    rewrite <- omap_reported_common_name.
    destruct (omap (M := list) reported_pair <$> parts) as [|p ps] eqn:E;
      [done|].
    by rewrite common_name_parts_loop_spec.
  - apply map_eq. intros key. rewrite !lookup_fmap.
    destruct (_ !! key) as [old|]; [|done]. simpl.
    by rewrite decode_old_loop_spec.
Qed.
End basic_facts.

Section basic_facts_socket.
Context `{PyBuiltins} `{SslModule}.

Lemma basic_from_ssl_socket_returned sock data c :
  basic_has_getpeercert sock = true →
  basic_getpeercert sock = Some data →
  peercert_truthy data = true →
  BasicCertificateData.from_ssl_socket sock = Return c →
  validated c = true
  ∧ subject_name c
    = (λ parts : list (list (bytes * bytes)),
         (λ part : list (bytes * bytes), omap reported_pair part) <$> parts)
      <$> pc_subject data
  ∧ common_names c
    = Some (omap reported_common_name (concat (default [] (pc_subject data))))
  ∧ alt_names c
    = (λ old : list bytes, omap decode_utf_8 old)
      <$> BasicCertificateData.alt_name_pairs_loop
            (default [] (pc_subjectAltName data)) ∅.
Proof.
  destruct sock as [has report]. simpl. intros -> -> Htruthy.
  rewrite basic_from_ssl_socket_report by done.
  destruct (match pc_notAfter data with Some _ => _ | None => _ end)
    as [not_after|e]; simpl; [|done].
  by intros [= <-].
Qed.

Lemma basic_alt_names_lookup pairs key :
  ((λ old : list bytes, omap decode_utf_8 old)
   <$> BasicCertificateData.alt_name_pairs_loop pairs ∅) !! key
  = match reported_values key pairs with
    | [] => None
    | values => Some (omap decode_utf_8 values)
    end.
Proof.
  rewrite lookup_fmap, alt_name_pairs_loop_spec, lookup_empty.
  by destruct (reported_values key pairs).
Qed.
End basic_facts_socket.

(** X18. [BasicCertificateData.from_ssl_socket] marks a certificate
    validated exactly when the socket has [getpeercert] and its report
    is a non-empty dict. Otherwise it returns the data of
    [CertificateData.__init__], and nothing is raised. *)
Theorem basic_from_ssl_socket_validated `{PyBuiltins} `{SslModule}
    (sock : basic_ssl_socket) :
  (∀ c, BasicCertificateData.from_ssl_socket sock = Return c →
        validated c
        = basic_has_getpeercert sock
          && match basic_getpeercert sock with
             | Some data => peercert_truthy data
             | None => false
             end)
  ∧ (basic_has_getpeercert sock
     && match basic_getpeercert sock with
        | Some data => peercert_truthy data
        | None => false
        end = false →
     BasicCertificateData.from_ssl_socket sock = Return CertificateData_init).
Proof.
  destruct sock as [[|] [data|]]; simpl; try (split; [by intros c [= <-]|done]).
  destruct (peercert_truthy data) eqn:Htruthy.
  - split; [|done]. intros c Hc.
    by apply (basic_from_ssl_socket_returned _ data) in Hc as [-> _].
  - unfold BasicCertificateData.from_ssl_socket. simpl. rewrite Htruthy. simpl.
    split; [by intros c [= <-]|done].
Qed.

Lemma basic_from_ssl_socket_validated_witness :
  BasicCertificateData.from_ssl_socket
    (H := Example.ascii_builtins) (Sample.basic_socket None)
  = Return CertificateData_init
  ∧ ∃ c, BasicCertificateData.from_ssl_socket
           (H := Example.ascii_builtins)
           (Sample.basic_socket (Some Sample.sample_peercert)) = Return c
         ∧ validated c = true.
Proof.
  split.
  - by apply (basic_from_ssl_socket_validated (H := Example.ascii_builtins)
                (H0 := Sample.sample_ssl) (Sample.basic_socket None)).
  - destruct (BasicCertificateData.from_ssl_socket
                (H := Example.ascii_builtins) (H0 := Sample.sample_ssl)
                (Sample.basic_socket (Some Sample.sample_peercert)))
      as [c|e] eqn:E; [|by vm_compute in E].
    exists c. split; [done|].
    destruct (basic_from_ssl_socket_validated (H := Example.ascii_builtins)
                (H0 := Sample.sample_ssl)
                (Sample.basic_socket (Some Sample.sample_peercert)))
      as [Hv _].
    by rewrite (Hv c E).
Defined.

(** X19. The only exception of [BasicCertificateData.from_ssl_socket]
    is the [ValueError] of a [notAfter] text that
    [ssl.cert_time_to_seconds] or [datetime.utcfromtimestamp] refuses;
    it is raised exactly when a non-empty report carries such a text.
    Names and values that do not decode never raise. *)
Theorem basic_from_ssl_socket_raises `{PyBuiltins} `{SslModule}
    (sock : basic_ssl_socket) (e : exn) :
  BasicCertificateData.from_ssl_socket sock = Raise e
  ↔ e = ValueError
    ∧ basic_has_getpeercert sock = true
    ∧ ∃ data text,
        basic_getpeercert sock = Some data
        ∧ peercert_truthy data = true
        ∧ pc_notAfter data = Some text
        ∧ cert_time_to_seconds text ≫= utcfromtimestamp = None.
Proof.
  destruct sock as [[|] [data|]]; simpl;
    try (split; [done|by intros (_ & ? & ? & ? & ? & _)]).
  destruct (peercert_truthy data) eqn:Htruthy.
  - rewrite basic_from_ssl_socket_report by done. split.
    + destruct (pc_notAfter data) as [text|] eqn:Etext; simpl; [|done].
      destruct (cert_time_to_seconds text) as [ts|] eqn:Ets; simpl.
      * destruct (utcfromtimestamp ts) as [t|] eqn:Et; simpl; [done|].
        intros [= <-]. split; [done|]. split; [done|].
        exists data, text. rewrite Ets. simpl. by rewrite Et.
      * intros [= <-]. split; [done|]. split; [done|].
        exists data, text. by rewrite Ets.
    + intros (-> & _ & d & text & [= <-] & _ & Etext & Etime).
      rewrite Etext. simpl.
      destruct (cert_time_to_seconds text) as [ts|]; simpl in *; [|done].
      by rewrite Etime.
  - unfold BasicCertificateData.from_ssl_socket. simpl. rewrite Htruthy. simpl.
    split; [done|]. intros (_ & _ & d & text & [= <-] & ? & _). congruence.
Qed.

(** X20. From a non-empty report, the subject keeps for each RDN, in
    order, the pairs whose name and value both decode, and the common
    names are the decoded values of the pairs named ["commonName"], in
    order through all RDNs; a pair that does not decode is dropped
    alone. Without a subject the common names are the empty list, not
    [None]. *)
Theorem basic_from_ssl_socket_subject `{PyBuiltins} `{SslModule}
    (sock : basic_ssl_socket) (data : peercert) (c : CertificateData) :
  basic_has_getpeercert sock = true →
  basic_getpeercert sock = Some data →
  peercert_truthy data = true →
  BasicCertificateData.from_ssl_socket sock = Return c →
  subject_name c
  = (λ parts : list (list (bytes * bytes)),
       (λ part : list (bytes * bytes), omap reported_pair part) <$> parts)
    <$> pc_subject data
  ∧ common_names c
    = Some (omap reported_common_name (concat (default [] (pc_subject data)))).
Proof.
  intros Hhas Hreport Htruthy Hc.
  apply (basic_from_ssl_socket_returned _ data) in Hc; tauto.
Qed.

Lemma basic_from_ssl_socket_subject_witness :
  ∃ c, BasicCertificateData.from_ssl_socket
         (H := Example.ascii_builtins)
         (Sample.basic_socket (Some Sample.sample_peercert)) = Return c
       ∧ subject_name c
         = Some [ [("countryName", "PL")];
                  [("commonName", "example.com");
                   ("organizationName", "Example")];
                  [("commonName", "www.example.com")] ]
       ∧ common_names c = Some ["example.com"; "www.example.com"].
Proof.
  destruct (BasicCertificateData.from_ssl_socket
              (H := Example.ascii_builtins) (H0 := Sample.sample_ssl)
              (Sample.basic_socket (Some Sample.sample_peercert)))
    as [c|e] eqn:E; [|by vm_compute in E].
  exists c. split; [done|].
  destruct (basic_from_ssl_socket_subject (H := Example.ascii_builtins)
              (H0 := Sample.sample_ssl)
              (Sample.basic_socket (Some Sample.sample_peercert))
              Sample.sample_peercert c eq_refl eq_refl eq_refl E)
    as [-> ->].
  by split.
Defined.

(** X21. From a non-empty report, a key is in [alt_names] exactly when
    the report has an alternative name of that type, whether or not its
    value decodes, and under the key are the values of that type that
    decode, in the order of the report. A type all of whose values are
    garbled is a key with an empty list. *)
Theorem basic_from_ssl_socket_alt_names `{PyBuiltins} `{SslModule}
    (sock : basic_ssl_socket) (data : peercert) (c : CertificateData)
    (key : string) :
  basic_has_getpeercert sock = true →
  basic_getpeercert sock = Some data →
  peercert_truthy data = true →
  BasicCertificateData.from_ssl_socket sock = Return c →
  (key ∈ dom (alt_names c)
   ↔ reported_values key (default [] (pc_subjectAltName data)) ≠ [])
  ∧ get_list (alt_names c) key
    = omap decode_utf_8
        (reported_values key (default [] (pc_subjectAltName data))).
Proof.
  intros Hhas Hreport Htruthy Hc.
  apply (basic_from_ssl_socket_returned _ data) in Hc as (_ & _ & _ & ->);
    try done.
  unfold get_list. rewrite elem_of_dom, basic_alt_names_lookup.
  destruct (reported_values key _) as [|v vs]; simpl.
  - split; [|done]. split; [by intros [? ?]|done].
  - split; [|done]. split; [done|]. eauto.
Qed.

Lemma basic_from_ssl_socket_alt_names_witness :
  ∃ c, BasicCertificateData.from_ssl_socket
         (H := Example.ascii_builtins)
         (Sample.basic_socket (Some Sample.sample_peercert)) = Return c
       ∧ get_list (alt_names c) "DNS" = ["example.com"; "www.example.com"]
       ∧ "email" ∈ dom (alt_names c).
Proof.
  destruct (BasicCertificateData.from_ssl_socket
              (H := Example.ascii_builtins) (H0 := Sample.sample_ssl)
              (Sample.basic_socket (Some Sample.sample_peercert)))
    as [c|e] eqn:E; [|by vm_compute in E].
  exists c. split; [done|]. split.
  - destruct (basic_from_ssl_socket_alt_names (H := Example.ascii_builtins)
                (H0 := Sample.sample_ssl)
                (Sample.basic_socket (Some Sample.sample_peercert))
                Sample.sample_peercert c "DNS" eq_refl eq_refl eq_refl E)
      as [_ ->].
    reflexivity.
  - destruct (basic_from_ssl_socket_alt_names (H := Example.ascii_builtins)
                (H0 := Sample.sample_ssl)
                (Sample.basic_socket (Some Sample.sample_peercert))
                Sample.sample_peercert c "email" eq_refl eq_refl eq_refl E)
      as [Hdom _].
    apply Hdom. by vm_compute.
Defined.

(** X22. When the report has an alternative name of type DNS or
    XmppAddr, [get_jids] on the resulting certificate draws on the
    decoded XmppAddr and DNS values only. If none of them decodes, or
    none parses, the result is empty although the certificate has
    common names. *)
Theorem basic_get_jids_ignores_common_names `{JIDModule} `{PyBuiltins}
    `{SslModule} (sock : basic_ssl_socket) (data : peercert)
    (c : CertificateData) :
  basic_has_getpeercert sock = true →
  basic_getpeercert sock = Some data →
  peercert_truthy data = true →
  BasicCertificateData.from_ssl_socket sock = Return c →
  reported_values "XmppAddr" (default [] (pc_subjectAltName data)) ≠ []
  ∨ reported_values "DNS" (default [] (pc_subjectAltName data)) ≠ [] →
  get_jids c
  = first_seen
      (omap JID_new
         (omap decode_utf_8
            (reported_values "XmppAddr" (default [] (pc_subjectAltName data)))
          ++ omap decode_utf_8
               (reported_values "DNS" (default [] (pc_subjectAltName data))))).
Proof.
  intros Hhas Hreport Htruthy Hc Hkeys.
  apply (basic_from_ssl_socket_returned _ data) in Hc as (_ & _ & _ & Han);
    try done.
  pose proof (basic_alt_names_lookup
                (default [] (pc_subjectAltName data)) "XmppAddr") as Hx.
  pose proof (basic_alt_names_lookup
                (default [] (pc_subjectAltName data)) "DNS") as Hd.
  rewrite <- Han in Hx, Hd.
  rewrite get_jids_candidates. unfold candidates.
  rewrite bool_decide_eq_true_2.
  - unfold get_list. rewrite Hx, Hd.
    by destruct (reported_values "XmppAddr" _), (reported_values "DNS" _).
  - rewrite !elem_of_dom, Hx, Hd.
    destruct Hkeys as [Hk|Hk]; [left|right];
      by destruct (reported_values _ _).
Qed.

Lemma basic_get_jids_ignores_common_names_witness :
  ∃ c, BasicCertificateData.from_ssl_socket
         (H := Example.ascii_builtins)
         (Sample.basic_socket (Some Sample.garbled_peercert)) = Return c
       ∧ common_names c = Some ["example.com"]
       ∧ get_jids c = [].
Proof.
  destruct (BasicCertificateData.from_ssl_socket
              (H := Example.ascii_builtins) (H0 := Sample.sample_ssl)
              (Sample.basic_socket (Some Sample.garbled_peercert)))
    as [c|e] eqn:E; [|by vm_compute in E].
  exists c. split; [done|]. split.
  - vm_compute in E. by injection E as <-.
  - rewrite (basic_get_jids_ignores_common_names
               (H := Example.simple_jid_module) (H0 := Example.ascii_builtins)
               (H1 := Sample.sample_ssl)
               (Sample.basic_socket (Some Sample.garbled_peercert))
               Sample.garbled_peercert c eq_refl eq_refl eq_refl E).
    + reflexivity.
    + right. by vm_compute.
Defined.
